(** * Livebot: the sheet caches and the query routes of [livebot.py]

    A shallow embedding of the data-access layer of [src/livebot.py]:
    the connection cache ([get_sheet]), the snapshot cache
    ([get_sheet_data]) and the route handlers [index], [add_row] and
    [search_rows] that sit on top of them.

    Conventions of the model.
    - A Python [str] is a [string]; its characters are read as the code
      points 0..255, on which [isspace], [lower] and [strip] below agree
      with Python's [str.isspace], [str.lower] and [str.strip].
    - [time.time()] returns a float; timestamps are modelled by rationals
      and the float rounding of [now - ts] is not modelled.
    - The two module-level dicts are the two fields of [State].
    - Everything outside the process (the clock, Google's answers) is an
      [Env]: what each external call of one request answers.
    - A computation returns its outcome (a value or a raised exception),
      the final state and the list of external calls it made. *)

From Stdlib Require Import Bool Arith List ZArith QArith Lia Lqa.
From Stdlib Require Import Ascii String DecimalString.
Import ListNotations.

Local Open Scope bool_scope.
Local Open Scope list_scope.

(* ------------------------------------------------------------------ *)
(** ** Python strings *)

Module PyStr.

Local Open Scope nat_scope.

(** [str.isspace] on one character, for the code points below 256 that
    an [ascii] stands for: the whitespace of Unicode above U+00FF
    (U+1680, U+2000-U+200A, U+2028, U+2029, U+202F, U+205F, U+3000) has
    no representative here. *)
Definition isspace (c : ascii) : bool :=
  let n := nat_of_ascii c in
  ((9 <=? n) && (n <=? 13)) || ((28 <=? n) && (n <=? 32))
  || (n =? 133) || (n =? 160).

(** [str.lower] on one character: A-Z and the Latin-1 capitals
    (0xC0-0xDE without the multiplication sign 0xD7) move up by 32.
    Below U+0100 [str.lower] lowers each character on its own; the
    context rules of Unicode (a final capital sigma) concern characters
    that have no representative here. *)
Definition lower_char (c : ascii) : ascii :=
  let n := nat_of_ascii c in
  if ((65 <=? n) && (n <=? 90))
     || ((192 <=? n) && (n <=? 222) && negb (n =? 215))
  then ascii_of_nat (n + 32)
  else c.

Fixpoint lower (s : string) : string :=
  match s with
  | EmptyString => EmptyString
  | String c s' => String (lower_char c) (lower s')
  end.

Fixpoint lstrip (s : string) : string :=
  match s with
  | EmptyString => EmptyString
  | String c s' => if isspace c then lstrip s' else s
  end.

Fixpoint rstrip (s : string) : string :=
  match s with
  | EmptyString => EmptyString
  | String c s' =>
      match rstrip s' with
      | EmptyString => if isspace c then EmptyString else String c EmptyString
      | r => String c r
      end
  end.

(** [s.strip()] *)
Definition strip (s : string) : string := rstrip (lstrip s).

(** [q in s] on strings: [q] occurs in [s] as a contiguous substring. *)
Fixpoint contains (s q : string) : bool :=
  String.prefix q s
  || match s with
     | EmptyString => false
     | String _ s' => contains s' q
     end.

(** Truthiness of a string: [bool(s)]. *)
Definition truthy (s : string) : bool :=
  match s with EmptyString => false | String _ _ => true end.

(** Every character of [s] is whitespace ([s] may be empty). *)
Fixpoint all_space (s : string) : bool :=
  match s with
  | EmptyString => true
  | String c s' => isspace c && all_space s'
  end.

(** The mathematical reading of "substring". *)
Definition Substring (q s : string) : Prop :=
  exists a b : string, s = (a ++ q ++ b)%string.

(** "[s] contains [q] as a case-insensitive substring". *)
Definition SubstringCI (q s : string) : Prop :=
  Substring (lower q) (lower s).

End PyStr.

(* ------------------------------------------------------------------ *)
(** ** Python lists: slices with a possibly negative bound *)

Module PyList.

Section Slices.
Context {A : Type}.

(** [l[:k]] *)
Definition slice_to (l : list A) (k : Z) : list A :=
  if (0 <=? k)%Z then firstn (Z.to_nat k) l
  else firstn (Z.to_nat (Z.of_nat (List.length l) + k)) l.

(** [l[k:]] *)
Definition slice_from (l : list A) (k : Z) : list A :=
  if (0 <=? k)%Z then skipn (Z.to_nat k) l
  else skipn (Z.to_nat (Z.of_nat (List.length l) + k)) l.

(** [bool(l)] *)
Definition truthy (l : list A) : bool :=
  match l with [] => false | _ :: _ => true end.

End Slices.

(** [bool(n)] for an int. *)
Definition truthy_int (n : Z) : bool := negb (n =? 0)%Z.

End PyList.

(* ------------------------------------------------------------------ *)
(** ** Configuration (lines 20-25) *)

Record Config : Type := mkConfig {
  SHOW_TABLE : bool;
  MAX_VISIBLE_ROWS : Z;
  MAX_SEARCH_RESULTS : Z;
  CACHE_TTL_SECONDS : Z;
  SHEET_REAUTH_SECONDS : Z
}.

(** The values taken when no environment variable is set. *)
Definition default_config : Config :=
  {| SHOW_TABLE := false;
     MAX_VISIBLE_ROWS := 0;
     MAX_SEARCH_RESULTS := 25;
     CACHE_TTL_SECONDS := 15;
     SHEET_REAUTH_SECONDS := 3600 |}.

(* ------------------------------------------------------------------ *)
(** ** State, environment, events *)

(** A worksheet handle of gspread; opaque, told apart by an identity. *)
Inductive Sheet : Type := Worksheet (id : nat).

(** A raised Python exception, carrying its message. *)
Inductive exn : Type := Exception (msg : string).

Definition exn_msg (e : exn) : string :=
  match e with Exception m => m end.

(** [_sheet_singleton = {"sheet": None, "ts": 0.0}] *)
Record SheetSingleton : Type := mkSingleton {
  sheet : option Sheet;
  ts : Q
}.

(** [_cached_data = {"headers": [], "rows": [], "fetched_at": 0.0}] *)
Record CachedData : Type := mkCached {
  headers : list string;
  rows : list (list string);
  fetched_at : Q
}.

Record State : Type := mkState {
  _sheet_singleton : SheetSingleton;
  _cached_data : CachedData
}.

Definition initial_state : State :=
  {| _sheet_singleton := {| sheet := None; ts := 0 |};
     _cached_data := {| headers := []; rows := []; fetched_at := 0 |} |}.

(** What the outside world answers during one request. *)
Record Env : Type := mkEnv {
  (** [time.time()] as read by [get_sheet_data] (line 57) *)
  now_get_sheet_data : Q;
  (** [time.time()] as read by [get_sheet] (line 33) *)
  now_get_sheet : Q;
  (** the body of the [try] of [get_sheet] (lines 37-47): loading the
      credentials, [gspread.authorize], [open_by_key(...).sheet1] *)
  remote_open : exn + Sheet;
  (** [sheet.get_all_values()] *)
  remote_read : exn + list (list string);
  (** [sheet.append_row(...)]: [None] when it succeeds *)
  remote_write : option exn
}.

(** External calls, in the order they are made. *)
Inductive Event : Type :=
| EvOpenSheet
| EvLogError (msg : string)
| EvGetAllValues (s : Sheet)
| EvAppendRow (s : Sheet) (values : list (option string)).

Inductive Outcome (A : Type) : Type :=
| Return (a : A)
| Raise (e : exn).
Arguments Return {A} a.
Arguments Raise {A} e.

(* ------------------------------------------------------------------ *)
(** ** The monad of requests: reader of [Env], state, exceptions, trace *)

Definition M (A : Type) : Type :=
  Env -> State -> Outcome A * State * list Event.

Definition ret {A} (a : A) : M A :=
  fun _ st => (Return a, st, []).

Definition bind {A B} (m : M A) (k : A -> M B) : M B :=
  fun env st =>
    match m env st with
    | (Return a, st1, tr1) =>
        let '(r, st2, tr2) := k a env st1 in (r, st2, tr1 ++ tr2)
    | (Raise e, st1, tr1) => (Raise e, st1, tr1)
    end.

(** [try: body  except Exception as exc: handler exc] *)
Definition try_except {A} (body : M A) (handler : exn -> M A) : M A :=
  fun env st =>
    match body env st with
    | (Raise e, st1, tr1) =>
        let '(r, st2, tr2) := handler e env st1 in (r, st2, tr1 ++ tr2)
    | done => done
    end.

Declare Scope req_scope.
Delimit Scope req_scope with req.
Notation "x <- m ;; k" := (bind m (fun x => k))
  (at level 100, m at next level, right associativity) : req_scope.
Notation "m ;;; k" := (bind m (fun _ => k))
  (at level 100, right associativity) : req_scope.
Local Open Scope req_scope.

Definition ask {A} (f : Env -> A) : M A :=
  fun env st => (Return (f env), st, []).

Definition gets {A} (f : State -> A) : M A :=
  fun _ st => (Return (f st), st, []).

Definition modify (f : State -> State) : M unit :=
  fun _ st => (Return tt, f st, []).

Definition emit (ev : Event) : M unit :=
  fun _ st => (Return tt, st, [ev]).

Definition raise {A} (e : exn) : M A :=
  fun _ st => (Raise e, st, []).

(** An external call: it is recorded, then answers or raises. *)
Definition answer {A} (r : exn + A) : M A :=
  match r with inl e => raise e | inr a => ret a end.

Definition open_sheet : M Sheet :=
  emit EvOpenSheet ;;;
  r <- ask remote_open ;; answer r.

Definition get_all_values (s : Sheet) : M (list (list string)) :=
  emit (EvGetAllValues s) ;;;
  r <- ask remote_read ;; answer r.

Definition append_row (s : Sheet) (values : list (option string)) : M unit :=
  emit (EvAppendRow s values) ;;;
  r <- ask remote_write ;;
  match r with Some e => raise e | None => ret tt end.

Definition logger_error (msg : string) : M unit := emit (EvLogError msg).

(* ------------------------------------------------------------------ *)
(** ** Comparisons on timestamps *)

Definition Qlt_bool (x y : Q) : bool := negb (Qle_bool y x).

(** Truthiness of a float: [bool(x)]. *)
Definition truthy_float (x : Q) : bool := negb (Qeq_bool x 0).

Notation "' pat <- m ;; k" :=
  (bind m (fun x => match x with pat => k end))
  (at level 100, pat pattern, m at next level, right associativity) : req_scope.

(** Responses of the route handlers. *)
Inductive Response : Type :=
| Redirect (url : string)
  (** [jsonify({"headers": ..., "rows": ...})] *)
| JsonTable (hs : list string) (rs : list (list string))
  (** [render_template("index.html", headers, rows, error_message, show_table)] *)
| IndexPage (hs : list string) (rs : list (list string))
            (error_message : option string) (show_table : bool).

(** The three components of a finished computation. *)
Definition outcome_of {A} (x : Outcome A * State * list Event) : Outcome A :=
  fst (fst x).

Definition state_of {A} (x : Outcome A * State * list Event) : State :=
  snd (fst x).

Definition trace_of {A} (x : Outcome A * State * list Event) : list Event :=
  snd x.

(** The rows a JSON table or a page carries. *)
Definition response_rows (r : Response) : list (list string) :=
  match r with
  | Redirect _ => []
  | JsonTable _ rs => rs
  | IndexPage _ rs _ _ => rs
  end.

(** Number of full remote reads ([get_all_values]) in a trace. *)
Definition remote_reads (tr : list Event) : nat :=
  List.length
    (filter (fun ev => match ev with EvGetAllValues _ => true | _ => false end) tr).

(** Number of attempts to open the sheet (authentication) in a trace. *)
Definition open_attempts (tr : list Event) : nat :=
  List.length
    (filter (fun ev => match ev with EvOpenSheet => true | _ => false end) tr).

(* ------------------------------------------------------------------ *)
(** ** The program *)

Section Livebot.

Variable cfg : Config.

Definition set_sheet (s : option Sheet) (st : State) : State :=
  {| _sheet_singleton :=
       {| sheet := s; ts := ts (_sheet_singleton st) |};
     _cached_data := _cached_data st |}.

Definition set_ts (t : Q) (st : State) : State :=
  {| _sheet_singleton :=
       {| sheet := sheet (_sheet_singleton st); ts := t |};
     _cached_data := _cached_data st |}.

(** [_cached_data.update({...})] with all three keys. *)
Definition update_cached (c : CachedData) (st : State) : State :=
  {| _sheet_singleton := _sheet_singleton st; _cached_data := c |}.

Definition is_not_None {A} (o : option A) : bool :=
  match o with Some _ => true | None => false end.

(** Line 34: the cached handle is served. *)
Definition sheet_fresh (st : State) (now : Q) : bool :=
  is_not_None (sheet (_sheet_singleton st))
  && Qlt_bool (now - ts (_sheet_singleton st))
              (inject_Z (SHEET_REAUTH_SECONDS cfg)).

(** Lines 31-53. *)
Definition get_sheet : M (option Sheet) :=
  now <- ask now_get_sheet ;;
  st <- gets (fun st => st) ;;
  if sheet_fresh st now then
    ret (sheet (_sheet_singleton st))
  else
    try_except
      (s <- open_sheet ;;
       modify (set_sheet (Some s)) ;;;
       modify (set_ts now) ;;;
       ret (Some s))
      (fun exc =>
         logger_error
           ("Failed to initialize Google Sheet client: " ++ exn_msg exc)%string ;;;
         ret None).

(** Line 59: the cached snapshot is served. *)
Definition cache_fresh (force : bool) (st : State) (now : Q) : bool :=
  negb force
  && truthy_float (fetched_at (_cached_data st))
  && Qlt_bool (now - fetched_at (_cached_data st))
              (inject_Z (CACHE_TTL_SECONDS cfg)).

(** Lines 56-73. *)
Definition get_sheet_data (force : bool)
  : M (list string * list (list string)) :=
  now <- ask now_get_sheet_data ;;
  st <- gets (fun st => st) ;;
  if cache_fresh force st now then
    ret (headers (_cached_data st), rows (_cached_data st))
  else
    s <- get_sheet ;;
    match s with
    | None => ret ([], [])
    | Some sh =>
        data <- get_all_values sh ;;
        let hs := match data with r :: _ => r | [] => [] end in
        let rs := if (1 <? List.length data)%nat
                  then PyList.slice_from data 1 else [] in
        modify (update_cached
                  {| headers := hs; rows := rs; fetched_at := now |}) ;;;
        ret (hs, rs)
    end.

(** Lines 76-95. *)
Definition index : M Response :=
  '(hs, rs) <- get_sheet_data false ;;
  if negb (PyList.truthy hs) && negb (PyList.truthy rs) then
    ret (IndexPage [] []
           (Some "Google Sheets credentials not found or invalid. Place a valid credentials.json in the project root."%string)
           (SHOW_TABLE cfg))
  else
    let '(hs, rs) :=
      if SHOW_TABLE cfg then
        (hs,
         if PyList.truthy_int (MAX_VISIBLE_ROWS cfg)
            && (MAX_VISIBLE_ROWS cfg <? Z.of_nat (List.length rs))%Z
         then PyList.slice_from rs (- MAX_VISIBLE_ROWS cfg)
         else rs)
      else ([], []) in
    ret (IndexPage hs rs None (SHOW_TABLE cfg)).

(** Lines 98-107; [form] is [request.form.get]. *)
Definition add_row (form : string -> option string) : M Response :=
  s <- get_sheet ;;
  match s with
  | None => ret (Redirect "/"%string)
  | Some sh =>
      let name := form "name"%string in
      let email := form "email"%string in
      let age := form "age"%string in
      append_row sh [name; email; age] ;;;
      ret (Redirect "/"%string)
  end.

(** [request.args.get("q") or ""] followed by [.strip().lower()]. *)
Definition normalize_query (q : option string) : string :=
  PyStr.lower
    (PyStr.strip
       (match q with
        | Some s => if PyStr.truthy s then s else EmptyString
        | None => EmptyString
        end)).

(** [any(query in str(cell).lower() for cell in row)]; the cells of a
    snapshot are already strings. *)
Definition row_matches (query : string) (row : list string) : bool :=
  existsb (fun cell => PyStr.contains (PyStr.lower cell) query) row.

(** Lines 136-137. *)
Definition limit_results (filtered : list (list string))
  : list (list string) :=
  if PyList.truthy_int (MAX_SEARCH_RESULTS cfg)
     && (MAX_SEARCH_RESULTS cfg <? Z.of_nat (List.length filtered))%Z
  then PyList.slice_to filtered (MAX_SEARCH_RESULTS cfg)
  else filtered.

(** Lines 123-139; [q] is [request.args.get("q")]. *)
Definition search_rows (q : option string) : M Response :=
  let query := normalize_query q in
  if negb (PyStr.truthy query) then ret (JsonTable [] [])
  else
    '(hs, rs) <- get_sheet_data false ;;
    if negb (PyList.truthy hs) && negb (PyList.truthy rs) then
      ret (JsonTable [] [])
    else
      let filtered := filter (row_matches query) rs in
      let filtered := limit_results filtered in
      ret (JsonTable hs filtered).

End Livebot.

(* ------------------------------------------------------------------ *)
(** ** Concrete snapshots, states and environments used as examples *)

Module Ex.

Local Open Scope string_scope.

Definition john_alice : CachedData :=
  {| headers := ["Name"; "Email"; "Age"];
     rows := [["John"; "j@x.com"; "30"]; ["Alice"; "a@y.com"; "25"]];
     fetched_at := 100 |}.

(** A handle opened at time 90 and the snapshot read at time 100. *)
Definition warm : State :=
  {| _sheet_singleton := {| sheet := Some (Worksheet 1); ts := 90 |};
     _cached_data := john_alice |}.

Definition table : list (list string) :=
  ["Name"; "Email"; "Age"]
  :: ["John"; "j@x.com"; "30"]
  :: ["Alice"; "a@y.com"; "25"]
  :: ["Bob"; "b@z.com"; "41"] :: [].

(** Everything answers; the clock reads [t]. *)
Definition healthy (t : Q) : Env :=
  {| now_get_sheet_data := t; now_get_sheet := t;
     remote_open := inr (Worksheet 2);
     remote_read := inr table;
     remote_write := None |}.

(** The credentials are rejected. *)
Definition unreachable (t : Q) : Env :=
  {| now_get_sheet_data := t; now_get_sheet := t;
     remote_open := inl (Exception "invalid_grant");
     remote_read := inr table;
     remote_write := None |}.

(** The sheet opens, then reading and writing fail. *)
Definition flaky (t : Q) : Env :=
  {| now_get_sheet_data := t; now_get_sheet := t;
     remote_open := inr (Worksheet 2);
     remote_read := inl (Exception "APIError 429");
     remote_write := Some (Exception "APIError 503") |}.

Definition form (key : string) : option string :=
  if String.eqb key "name" then Some "Bob"
  else if String.eqb key "email" then Some "b@z.com"
  else if String.eqb key "age" then Some "41"
  else None.

Definition unlimited : Config :=
  {| SHOW_TABLE := true;
     MAX_VISIBLE_ROWS := 0;
     MAX_SEARCH_RESULTS := 0;
     CACHE_TTL_SECONDS := 15;
     SHEET_REAUTH_SECONDS := 3600 |}.

Definition last_one : Config :=
  {| SHOW_TABLE := true;
     MAX_VISIBLE_ROWS := 1;
     MAX_SEARCH_RESULTS := 1;
     CACHE_TTL_SECONDS := 15;
     SHEET_REAUTH_SECONDS := 3600 |}.

End Ex.

(* ------------------------------------------------------------------ *)
(** ** The remaining routes: [get_latest] and the chat router *)

(** [l[k]] for a possibly negative index; [None] stands for the
    [IndexError] of an index out of range. *)
Definition list_getitem {A} (l : list A) (k : Z) : option A :=
  if (0 <=? k)%Z then nth_error l (Z.to_nat k)
  else if (0 <=? Z.of_nat (List.length l) + k)%Z
       then nth_error l (Z.to_nat (Z.of_nat (List.length l) + k))
       else None.

Definition IndexError : exn := Exception "list index out of range".

(** [str(n)] for an int, as an f-string renders it. *)
Definition str_of_int (n : Z) : string :=
  NilZero.string_of_int (Z.to_int n).

(** [jsonify({"row": ...})] *)
Inductive LatestJson : Type := JsonRow (row : list string).

(** [jsonify({"type": "text", "text": ...})] and
    [jsonify({"type": "table", "headers": ..., "rows": ...})] *)
Inductive ChatJson : Type :=
| ChatText (text : string)
| ChatTable (hs : list string) (rs : list (list string)).

(** Number of remote writes ([append_row]) in a trace. *)
Definition remote_writes (tr : list Event) : nat :=
  List.length
    (filter (fun ev => match ev with EvAppendRow _ _ => true | _ => false end)
       tr).

(** Line 148; a set, of which only membership is used. *)
Definition greetings : list string :=
  ["hi"; "hello"; "hey"; "yo"; "hola"]%string.

Definition greeting_text : string :=
  "Hello! I can search your Google Sheet. Ask things like: 'Find rows with john', 'emails with @gmail.com', or 'age 30'.".

Definition who_text : string :=
  "I'm your sheet bot. I read your configured Google Sheet and return matching rows.".

Definition show_table_text : string :=
  "For privacy, the table is hidden by default. Set SHOW_TABLE=true and refresh to enable it.".

Definition clear_text : string :=
  "I don't store chat history. Refresh the page to clear the conversation view.".

Definition not_configured_text : string :=
  "Sheets access is not configured (credentials.json missing or invalid).".

Definition empty_sheet_text : string := "The sheet appears to be empty.".

Definition enter_something_text : string :=
  "Please enter something to search.".

Section Routes.

Variable cfg : Config.

(** Lines 111-119. *)
Definition get_latest : M LatestJson :=
  '(hs, rs) <- get_sheet_data cfg false ;;
  if negb (PyList.truthy hs) && negb (PyList.truthy rs) then
    ret (JsonRow [])
  else if negb (PyList.truthy rs) then
    ret (JsonRow [])
  else
    match list_getitem rs (-1) with
    | Some latest_row => ret (JsonRow latest_row)
    | None => raise IndexError
    end.

Definition help_text : string :=
  ("Try: 'search alice', 'email contains @company.com', or 'age 25'. "
   ++ "I'll return up to " ++ str_of_int (MAX_SEARCH_RESULTS cfg)
   ++ " results.")%string.

(** Lines 143-176. *)
Definition _basic_chat_response (query : option string) : option string :=
  let q := normalize_query query in
  if negb (PyStr.truthy q) then None
  else if existsb (fun word => PyStr.contains q word) greetings
          || existsb (String.eqb q) greetings
  then Some greeting_text
  else if PyStr.contains q "help"
          || (PyStr.contains q "how" && PyStr.contains q "use")
  then Some help_text
  else if PyStr.contains q "who are you"
          || (PyStr.contains q "what" && PyStr.contains q "you"
              && PyStr.contains q "do")
  then Some who_text
  else if PyStr.contains q "show table" || PyStr.contains q "display table"
  then Some show_table_text
  else if PyStr.contains q "clear"
  then Some clear_text
  else None.

(** Lines 179-205; [q] is [request.args.get("q")], to which the route
    gives the default [""]. *)
Definition chat_router (q : option string) : M ChatJson :=
  let query := match q with Some s => s | None => EmptyString end in
  match _basic_chat_response (Some query) with
  | Some basic => ret (ChatText basic)
  | None =>
      s <- get_sheet cfg ;;
      match s with
      | None => ret (ChatText not_configured_text)
      | Some sh =>
          d <- get_all_values sh ;;
          let data := if PyList.truthy d then d else [] in
          if negb (PyList.truthy data) then ret (ChatText empty_sheet_text)
          else
            match list_getitem data 0 with
            | None => raise IndexError
            | Some hs =>
                let rs := if (1 <? List.length data)%nat
                          then PyList.slice_from data 1 else [] in
                let q := normalize_query (Some query) in
                if negb (PyStr.truthy q) then
                  ret (ChatText enter_something_text)
                else
                  let filtered := filter (row_matches q) rs in
                  let filtered := limit_results cfg filtered in
                  ret (ChatTable hs filtered)
            end
      end
  end.

End Routes.

(* ------------------------------------------------------------------ *)
(** ** Further configurations and environments used as examples *)

Module ExMore.

Local Open Scope string_scope.

(** The remote table is empty: gspread answers one empty row. *)
Definition empty_sheet (t : Q) : Env :=
  {| now_get_sheet_data := t; now_get_sheet := t;
     remote_open := inr (Worksheet 2);
     remote_read := inr [[]];
     remote_write := None |}.

(** The remote table has its header row only. *)
Definition headers_only (t : Q) : Env :=
  {| now_get_sheet_data := t; now_get_sheet := t;
     remote_open := inr (Worksheet 2);
     remote_read := inr [["Name"; "Email"; "Age"]];
     remote_write := None |}.

Definition no_cache : Config :=
  {| SHOW_TABLE := true;
     MAX_VISIBLE_ROWS := 0;
     MAX_SEARCH_RESULTS := 25;
     CACHE_TTL_SECONDS := 0;
     SHEET_REAUTH_SECONDS := 3600 |}.

Definition negative : Config :=
  {| SHOW_TABLE := true;
     MAX_VISIBLE_ROWS := -1;
     MAX_SEARCH_RESULTS := -1;
     CACHE_TTL_SECONDS := 15;
     SHEET_REAUTH_SECONDS := 3600 |}.

Definition no_form (key : string) : option string := None.

End ExMore.

(** The error message of the index page (line 84). *)
Definition credentials_text : string :=
  "Google Sheets credentials not found or invalid. Place a valid credentials.json in the project root.".

(* ------------------------------------------------------------------ *)
(** ** Auxiliary facts *)

(** Unfolding the monad down to plain [match]es. *)
Ltac run_req :=
  cbv beta iota zeta delta
    [get_sheet get_sheet_data add_row index search_rows
     bind ret ask gets modify emit raise answer try_except
     open_sheet get_all_values append_row logger_error].

Ltac step_with H := rewrite H; cbv beta iota zeta.

Lemma Qlt_bool_iff (x y : Q) : Qlt_bool x y = true <-> x < y.
Proof.
  unfold Qlt_bool. rewrite negb_true_iff.
  split; intro H.
  - apply Qnot_le_lt. intro Hle. apply Qle_bool_iff in Hle. congruence.
  - destruct (Qle_bool y x) eqn:E; [|reflexivity].
    apply Qle_bool_iff in E. exfalso. apply (Qlt_not_le _ _ H E).
Qed.

Lemma Qlt_bool_false_iff (x y : Q) : Qlt_bool x y = false <-> y <= x.
Proof.
  unfold Qlt_bool. rewrite negb_false_iff. apply Qle_bool_iff.
Qed.

Lemma truthy_float_iff (x : Q) : truthy_float x = true <-> ~ x == 0.
Proof.
  unfold truthy_float. rewrite negb_true_iff. split; intro H.
  - now apply Qeq_bool_neq.
  - destruct (Qeq_bool x 0) eqn:E; [|reflexivity].
    apply Qeq_bool_iff in E. contradiction.
Qed.

Lemma is_not_None_iff {A} (o : option A) :
  is_not_None o = true <-> exists a, o = Some a.
Proof.
  destruct o; simpl; split; intro H; eauto; try discriminate.
  destruct H; discriminate.
Qed.

(** *** The three paths of [get_sheet] *)

Section Paths.

Variable cfg : Config.

Lemma get_sheet_cached env st :
  sheet_fresh cfg st (now_get_sheet env) = true ->
  get_sheet cfg env st = (Return (sheet (_sheet_singleton st)), st, []).
Proof.
  intro H. run_req. step_with H. reflexivity.
Qed.

Lemma get_sheet_opened env st s :
  sheet_fresh cfg st (now_get_sheet env) = false ->
  remote_open env = inr s ->
  get_sheet cfg env st =
    (Return (Some s),
     {| _sheet_singleton := {| sheet := Some s; ts := now_get_sheet env |};
        _cached_data := _cached_data st |},
     [EvOpenSheet]).
Proof.
  intros H Ho. run_req. step_with H. step_with Ho. reflexivity.
Qed.

Lemma get_sheet_failed env st e :
  sheet_fresh cfg st (now_get_sheet env) = false ->
  remote_open env = inl e ->
  get_sheet cfg env st =
    (Return None, st,
     [EvOpenSheet;
      EvLogError
        ("Failed to initialize Google Sheet client: " ++ exn_msg e)%string]).
Proof.
  intros H Ho. run_req. step_with H. step_with Ho. reflexivity.
Qed.

(** [get_sheet] always returns, and never touches the snapshot. *)
Lemma get_sheet_total env st :
  exists o st' tr,
    get_sheet cfg env st = (Return o, st', tr)
    /\ _cached_data st' = _cached_data st
    /\ remote_reads tr = 0%nat.
Proof.
  destruct (sheet_fresh cfg st (now_get_sheet env)) eqn:F.
  - rewrite (get_sheet_cached _ _ F). eauto 6.
  - destruct (remote_open env) as [e|s] eqn:Ho.
    + rewrite (get_sheet_failed _ _ _ F Ho). eauto 6.
    + rewrite (get_sheet_opened _ _ _ F Ho). eauto 6.
Qed.

(** When [get_sheet] returns no handle, it went through a failed open. *)
Lemma get_sheet_None env st st' tr :
  get_sheet cfg env st = (Return None, st', tr) ->
  sheet_fresh cfg st (now_get_sheet env) = false
  /\ st' = st
  /\ exists e, remote_open env = inl e
       /\ tr = [EvOpenSheet;
                EvLogError
                  ("Failed to initialize Google Sheet client: "
                   ++ exn_msg e)%string].
Proof.
  intro H.
  destruct (sheet_fresh cfg st (now_get_sheet env)) eqn:F.
  - rewrite (get_sheet_cached _ _ F) in H.
    unfold sheet_fresh in F. apply andb_prop in F. destruct F as [F _].
    destruct (sheet (_sheet_singleton st)); discriminate.
  - destruct (remote_open env) as [e|s] eqn:Ho.
    + rewrite (get_sheet_failed _ _ _ F Ho) in H. inversion H; subst. eauto.
    + rewrite (get_sheet_opened _ _ _ F Ho) in H. discriminate.
Qed.

(** A handle that is stale stays stale as the clock advances. *)
Lemma sheet_fresh_false_later st t t' :
  sheet_fresh cfg st t = false -> t <= t' -> sheet_fresh cfg st t' = false.
Proof.
  unfold sheet_fresh. intros H Hle.
  apply andb_false_iff in H. apply andb_false_iff.
  destruct H as [H|H]; [now left|right].
  apply Qlt_bool_false_iff in H. apply Qlt_bool_false_iff. lra.
Qed.

(** *** The paths of [get_sheet_data] *)

Lemma get_sheet_data_cached force env st :
  cache_fresh cfg force st (now_get_sheet_data env) = true ->
  get_sheet_data cfg force env st =
    (Return (headers (_cached_data st), rows (_cached_data st)), st, []).
Proof.
  intro H. run_req. step_with H. reflexivity.
Qed.

Lemma get_sheet_data_no_sheet force env st st1 tr1 :
  cache_fresh cfg force st (now_get_sheet_data env) = false ->
  get_sheet cfg env st = (Return None, st1, tr1) ->
  get_sheet_data cfg force env st = (Return ([], []), st1, tr1).
Proof.
  intros H Hs. unfold get_sheet_data.
  cbv beta iota zeta delta [bind ask gets ret]. step_with H. step_with Hs.
  now rewrite app_nil_r.
Qed.

Lemma get_sheet_data_read force env st st1 tr1 sh data :
  cache_fresh cfg force st (now_get_sheet_data env) = false ->
  get_sheet cfg env st = (Return (Some sh), st1, tr1) ->
  remote_read env = inr data ->
  get_sheet_data cfg force env st =
    (Return (hd [] data, tl data),
     {| _sheet_singleton := _sheet_singleton st1;
        _cached_data := {| headers := hd [] data; rows := tl data;
                           fetched_at := now_get_sheet_data env |} |},
     tr1 ++ [EvGetAllValues sh]).
Proof.
  intros H Hs Hr. unfold get_sheet_data.
  cbv beta iota zeta delta
    [bind ask gets ret get_all_values emit answer modify].
  step_with H. step_with Hs. step_with Hr.
  destruct data as [|r [|r' data]]; reflexivity.
Qed.

Lemma get_sheet_data_read_raises force env st st1 tr1 sh e :
  cache_fresh cfg force st (now_get_sheet_data env) = false ->
  get_sheet cfg env st = (Return (Some sh), st1, tr1) ->
  remote_read env = inl e ->
  get_sheet_data cfg force env st = (Raise e, st1, tr1 ++ [EvGetAllValues sh]).
Proof.
  intros H Hs Hr. unfold get_sheet_data.
  cbv beta iota zeta delta
    [bind ask gets ret get_all_values emit answer raise].
  step_with H. step_with Hs. step_with Hr. reflexivity.
Qed.

(** A snapshot that is not served stays unserved as the clock advances. *)
Lemma cache_fresh_false_later st t t' force' :
  cache_fresh cfg false st t = false -> t <= t' ->
  cache_fresh cfg force' st t' = false.
Proof.
  unfold cache_fresh. simpl. intros H Hle.
  destruct force'; [reflexivity|]. simpl.
  apply andb_false_iff in H. apply andb_false_iff.
  destruct H as [H|H]; [now left|right].
  apply Qlt_bool_false_iff in H. apply Qlt_bool_false_iff. lra.
Qed.

End Paths.

(** *** Strings *)

Lemma prefix_app_iff (q s : string) :
  String.prefix q s = true <-> exists b : string, s = (q ++ b)%string.
Proof.
  revert s. induction q as [|a q IH]; intro s.
  - destruct s; simpl; split; eauto.
  - destruct s as [|b s]; simpl.
    + split; [discriminate | intros [r Hr]; discriminate].
    + destruct (ascii_dec a b) as [->|Hab].
      * rewrite IH. split; intros [r Hr]; exists r.
        -- now rewrite Hr.
        -- now inversion Hr.
      * split; [discriminate | intros [r Hr]; inversion Hr; subst; now elim Hab].
Qed.

(** [q in s] holds exactly when [s] reads [a ++ q ++ b]. *)
Lemma contains_iff (s q : string) :
  PyStr.contains s q = true <-> PyStr.Substring q s.
Proof.
  unfold PyStr.Substring. induction s as [|c s IH].
  - cbn [PyStr.contains]. rewrite orb_false_r, prefix_app_iff. split.
    + intros [b Hb]. exists EmptyString, b. exact Hb.
    + intros [a [b Hab]]. destruct a; [eauto | discriminate].
  - cbn [PyStr.contains]. rewrite orb_true_iff, prefix_app_iff, IH. split.
    + intros [[b Hb] | [a [b Hab]]].
      * exists EmptyString, b. exact Hb.
      * exists (String c a), b. simpl. now rewrite Hab.
    + intros [a [b Hab]]. destruct a as [|c' a].
      * left. exists b. exact Hab.
      * right. exists a, b. now inversion Hab.
Qed.

Lemma lstrip_all_space (s : string) :
  PyStr.all_space s = true -> PyStr.lstrip s = EmptyString.
Proof.
  induction s as [|c s IH]; simpl; [reflexivity|].
  intro H. apply andb_prop in H. destruct H as [Hc Hs].
  rewrite Hc. auto.
Qed.

Lemma lstrip_not_all_space (s : string) :
  PyStr.all_space s = false ->
  exists c r, PyStr.lstrip s = String c r /\ PyStr.isspace c = false.
Proof.
  induction s as [|c s IH]; simpl; [discriminate|].
  destruct (PyStr.isspace c) eqn:Hc; simpl; intro H; eauto.
Qed.

Lemma rstrip_keeps_head (c : ascii) (r : string) :
  PyStr.isspace c = false -> PyStr.truthy (PyStr.rstrip (String c r)) = true.
Proof.
  intro Hc. simpl. destruct (PyStr.rstrip r); [rewrite Hc|]; reflexivity.
Qed.

Lemma truthy_lower (s : string) :
  PyStr.truthy (PyStr.lower s) = PyStr.truthy s.
Proof. destruct s; reflexivity. Qed.

(** The normalised query is empty exactly for a missing, empty or
    whitespace-only [q]. *)
Lemma normalize_query_truthy (q : option string) :
  PyStr.truthy (normalize_query q) =
  match q with
  | Some s => negb (PyStr.all_space s)
  | None => false
  end.
Proof.
  unfold normalize_query. rewrite truthy_lower. destruct q as [s|]; [|reflexivity].
  destruct (PyStr.all_space s) eqn:Hs; simpl.
  - destruct s as [|c s]; [reflexivity|]. cbn [PyStr.truthy].
    unfold PyStr.strip. now rewrite (lstrip_all_space _ Hs).
  - destruct s as [|c s]; [discriminate|]. cbn [PyStr.truthy].
    destruct (lstrip_not_all_space _ Hs) as [c' [r [Hl Hc']]].
    unfold PyStr.strip. rewrite Hl. now apply rstrip_keeps_head.
Qed.

Lemma normalize_query_Some (s : string) :
  normalize_query (Some s) = PyStr.lower (PyStr.strip s).
Proof. unfold normalize_query. destruct s; reflexivity. Qed.

(** *** Slices *)

Lemma slice_to_prefix {A} (l : list A) (k : Z) :
  exists rest, l = PyList.slice_to l k ++ rest.
Proof.
  unfold PyList.slice_to.
  destruct (0 <=? k)%Z; eexists; symmetry; apply firstn_skipn.
Qed.

Lemma slice_from_suffix {A} (l : list A) (k : Z) :
  exists front, l = front ++ PyList.slice_from l k.
Proof.
  unfold PyList.slice_from.
  destruct (0 <=? k)%Z; eexists; symmetry; apply firstn_skipn.
Qed.

(** *** What [search_rows] answers, given the snapshot it is served *)

Lemma search_rows_empty_query cfg q env st :
  PyStr.truthy (normalize_query q) = false ->
  search_rows cfg q env st = (Return (JsonTable [] []), st, []).
Proof.
  intro H. unfold search_rows. cbv zeta. rewrite H. reflexivity.
Qed.

Lemma limit_results_nil cfg : limit_results cfg [] = [].
Proof.
  unfold limit_results, PyList.slice_to.
  destruct (_ && _); [|reflexivity].
  destruct (0 <=? _)%Z; apply firstn_nil.
Qed.

Lemma search_rows_served cfg q env st hs rs st' tr :
  PyStr.truthy (normalize_query q) = true ->
  get_sheet_data cfg false env st = (Return (hs, rs), st', tr) ->
  search_rows cfg q env st =
    (Return
       (JsonTable hs
          (limit_results cfg (filter (row_matches (normalize_query q)) rs))),
     st', tr).
Proof.
  intros Hq Hd. unfold search_rows. cbv zeta. rewrite Hq.
  cbv beta iota delta [negb bind]. rewrite Hd. cbv beta iota.
  destruct hs as [|h hs]; destruct rs as [|r rs];
    cbv beta iota delta [PyList.truthy negb andb ret];
    rewrite ?app_nil_r; try reflexivity.
  simpl filter. now rewrite limit_results_nil.
Qed.

Lemma search_rows_raises cfg q env st e st' tr :
  PyStr.truthy (normalize_query q) = true ->
  get_sheet_data cfg false env st = (Raise e, st', tr) ->
  search_rows cfg q env st = (Raise e, st', tr).
Proof.
  intros Hq Hd. unfold search_rows. cbv zeta. rewrite Hq.
  cbv beta iota delta [negb bind]. now rewrite Hd.
Qed.

(** A row passes the filter exactly when one of its cells, lowered,
    contains the query. *)
Lemma row_matches_iff (query : string) (row : list string) :
  row_matches query row = true <->
  exists cell, In cell row /\ PyStr.Substring query (PyStr.lower cell).
Proof.
  unfold row_matches. rewrite existsb_exists.
  split; intros [cell [Hin H]]; exists cell; split; auto;
    now apply contains_iff.
Qed.

(** *** What [add_row] and [index] do, given the handle or snapshot
    they are served *)

Lemma add_row_no_sheet cfg form env st st1 tr1 :
  get_sheet cfg env st = (Return None, st1, tr1) ->
  add_row cfg form env st = (Return (Redirect "/"), st1, tr1).
Proof.
  intro Hs. unfold add_row. cbv beta iota zeta delta [bind ret].
  step_with Hs. now rewrite app_nil_r.
Qed.

Lemma add_row_written cfg form env st st1 tr1 sh :
  get_sheet cfg env st = (Return (Some sh), st1, tr1) ->
  remote_write env = None ->
  add_row cfg form env st =
    (Return (Redirect "/"), st1,
     tr1 ++ [EvAppendRow sh
               [form "name"%string; form "email"%string; form "age"%string]]).
Proof.
  intros Hs Hw. unfold add_row.
  cbv beta iota zeta delta [bind ret append_row emit ask raise].
  step_with Hs. step_with Hw. reflexivity.
Qed.

Lemma add_row_write_raises cfg form env st st1 tr1 sh e :
  get_sheet cfg env st = (Return (Some sh), st1, tr1) ->
  remote_write env = Some e ->
  add_row cfg form env st =
    (Raise e, st1,
     tr1 ++ [EvAppendRow sh
               [form "name"%string; form "email"%string; form "age"%string]]).
Proof.
  intros Hs Hw. unfold add_row.
  cbv beta iota zeta delta [bind ret append_row emit ask raise].
  step_with Hs. step_with Hw. reflexivity.
Qed.

Lemma remote_reads_app (tr1 tr2 : list Event) :
  remote_reads (tr1 ++ tr2) = (remote_reads tr1 + remote_reads tr2)%nat.
Proof. unfold remote_reads. now rewrite filter_app, length_app. Qed.

Lemma open_attempts_app (tr1 tr2 : list Event) :
  open_attempts (tr1 ++ tr2) = (open_attempts tr1 + open_attempts tr2)%nat.
Proof. unfold open_attempts. now rewrite filter_app, length_app. Qed.

(** A call of [get_sheet] on a stale entry tries to open the sheet once. *)
Lemma get_sheet_stale_attempts cfg env st :
  sheet_fresh cfg st (now_get_sheet env) = false ->
  exists o st' tr,
    get_sheet cfg env st = (Return o, st', tr) /\ open_attempts tr = 1%nat.
Proof.
  intro F. destruct (remote_open env) as [e|s] eqn:Ho.
  - rewrite (get_sheet_failed _ _ _ _ F Ho). eauto 6.
  - rewrite (get_sheet_opened _ _ _ _ F Ho). eauto 6.
Qed.

(** A call of [get_sheet_data] that is not served from the cache over a
    stale handle tries to open the sheet once. *)
Lemma get_sheet_data_stale_attempts cfg force env st :
  cache_fresh cfg force st (now_get_sheet_data env) = false ->
  sheet_fresh cfg st (now_get_sheet env) = false ->
  open_attempts (trace_of (get_sheet_data cfg force env st)) = 1%nat.
Proof.
  intros C F.
  destruct (get_sheet_stale_attempts _ _ _ F) as [o [st' [tr [Hs Ht]]]].
  destruct o as [sh|].
  - destruct (remote_read env) as [e|data] eqn:Hr.
    + rewrite (get_sheet_data_read_raises _ _ _ _ _ _ _ _ C Hs Hr).
      unfold trace_of. simpl. rewrite open_attempts_app, Ht. reflexivity.
    + rewrite (get_sheet_data_read _ _ _ _ _ _ _ _ C Hs Hr).
      unfold trace_of. simpl. rewrite open_attempts_app, Ht. reflexivity.
  - rewrite (get_sheet_data_no_sheet _ _ _ _ _ _ C Hs). exact Ht.
Qed.

Lemma sheet_fresh_iff cfg st now :
  sheet_fresh cfg st now = true <->
  exists h, sheet (_sheet_singleton st) = Some h
            /\ now - ts (_sheet_singleton st)
               < inject_Z (SHEET_REAUTH_SECONDS cfg).
Proof.
  unfold sheet_fresh. rewrite andb_true_iff, is_not_None_iff, Qlt_bool_iff.
  split.
  - intros [[h Hh] Hlt]. eauto.
  - intros [h [Hh Hlt]]. eauto.
Qed.

Lemma cache_fresh_iff cfg force st now :
  cache_fresh cfg force st now = true <->
  force = false
  /\ ~ fetched_at (_cached_data st) == 0
  /\ now - fetched_at (_cached_data st) < inject_Z (CACHE_TTL_SECONDS cfg).
Proof.
  unfold cache_fresh.
  rewrite !andb_true_iff, negb_true_iff, truthy_float_iff, Qlt_bool_iff.
  tauto.
Qed.

(* ------------------------------------------------------------------ *)
(** ** The connection cache *)

(** C7. A cached handle younger than [SHEET_REAUTH_SECONDS] is returned
    as it is, with no external call at all.  In every other state
    [get_sheet] tries once to open the sheet: a success is stored with
    the current time and returned; a failure returns [None] and leaves
    the whole state (handle and timestamp included) as it was, so that
    at any later time the entry is still stale and the next call tries
    to open the sheet again instead of serving the old handle. *)
Theorem get_sheet_connection_cache cfg env st :
  (forall h,
      sheet (_sheet_singleton st) = Some h ->
      now_get_sheet env - ts (_sheet_singleton st)
        < inject_Z (SHEET_REAUTH_SECONDS cfg) ->
      get_sheet cfg env st = (Return (Some h), st, []))
  /\ (~ (exists h, sheet (_sheet_singleton st) = Some h
                   /\ now_get_sheet env - ts (_sheet_singleton st)
                      < inject_Z (SHEET_REAUTH_SECONDS cfg)) ->
      open_attempts (trace_of (get_sheet cfg env st)) = 1%nat
      /\ (forall s, remote_open env = inr s ->
            outcome_of (get_sheet cfg env st) = Return (Some s)
            /\ _sheet_singleton (state_of (get_sheet cfg env st))
               = {| sheet := Some s; ts := now_get_sheet env |})
      /\ (forall e, remote_open env = inl e ->
            outcome_of (get_sheet cfg env st) = Return None
            /\ state_of (get_sheet cfg env st) = st
            /\ forall env',
                now_get_sheet env <= now_get_sheet env' ->
                open_attempts (trace_of (get_sheet cfg env' st)) = 1%nat)).
Proof.
  split.
  - intros h Hh Hlt.
    assert (F : sheet_fresh cfg st (now_get_sheet env) = true)
      by (apply sheet_fresh_iff; eauto).
    rewrite (get_sheet_cached _ _ _ F). now rewrite Hh.
  - intro Hstale.
    assert (F : sheet_fresh cfg st (now_get_sheet env) = false).
    { destruct (sheet_fresh cfg st (now_get_sheet env)) eqn:E; [|reflexivity].
      apply sheet_fresh_iff in E. contradiction. }
    split; [|split].
    + destruct (get_sheet_stale_attempts _ _ _ F) as [o [st' [tr [Hs Ht]]]].
      now rewrite Hs.
    + intros s Ho. rewrite (get_sheet_opened _ _ _ _ F Ho). split; reflexivity.
    + intros e Ho. rewrite (get_sheet_failed _ _ _ _ F Ho).
      split; [reflexivity | split; [reflexivity|]].
      intros env' Hle.
      pose proof (sheet_fresh_false_later _ _ _ _ F Hle) as F'.
      destruct (get_sheet_stale_attempts _ _ _ F') as [o [st' [tr [Hs Ht]]]].
      now rewrite Hs.
Qed.

Lemma get_sheet_connection_cache_witness :
  get_sheet default_config (Ex.healthy 105) Ex.warm
    = (Return (Some (Worksheet 1)), Ex.warm, [])
  /\ outcome_of (get_sheet default_config (Ex.unreachable 5000) Ex.warm)
     = Return None
  /\ state_of (get_sheet default_config (Ex.unreachable 5000) Ex.warm)
     = Ex.warm
  /\ open_attempts
       (trace_of (get_sheet default_config (Ex.healthy 6000) Ex.warm))
     = 1%nat.
Proof.
  split.
  - apply (proj1 (get_sheet_connection_cache
                    default_config (Ex.healthy 105) Ex.warm)).
    + reflexivity.
    + vm_compute. reflexivity.
  - assert (Hstale :
      ~ (exists h, sheet (_sheet_singleton Ex.warm) = Some h
                   /\ now_get_sheet (Ex.unreachable 5000)
                      - ts (_sheet_singleton Ex.warm)
                      < inject_Z (SHEET_REAUTH_SECONDS default_config))).
    { intros [h [_ Hlt]]. vm_compute in Hlt. discriminate. }
    destruct (proj2 (get_sheet_connection_cache
                       default_config (Ex.unreachable 5000) Ex.warm) Hstale)
      as [_ [_ Hfail]].
    destruct (Hfail (Exception "invalid_grant") eq_refl) as [Ho [Hst Hnext]].
    split; [exact Ho | split; [exact Hst|]].
    apply (Hnext (Ex.healthy 6000)). vm_compute. discriminate.
Defined.

(* ------------------------------------------------------------------ *)
(** ** The snapshot cache *)

(** C2. While the cache holds a snapshot (a non-zero [fetched_at]) whose
    age is below [CACHE_TTL_SECONDS], a non-forced [get_sheet_data]
    returns the cached headers and rows, leaves the state as it is and
    makes no external call.  Hence a call that reads the remote table,
    followed by a second call within the TTL of the first, returns the
    same snapshot twice with exactly one remote read in total. *)
Theorem get_sheet_data_served_from_cache cfg :
  (forall env st,
      ~ fetched_at (_cached_data st) == 0 ->
      now_get_sheet_data env - fetched_at (_cached_data st)
        < inject_Z (CACHE_TTL_SECONDS cfg) ->
      get_sheet_data cfg false env st
        = (Return (headers (_cached_data st), rows (_cached_data st)),
           st, []))
  /\ (forall env1 env2 st0 snap st1 tr1,
        get_sheet_data cfg false env1 st0 = (Return snap, st1, tr1) ->
        remote_reads tr1 = 1%nat ->
        ~ now_get_sheet_data env1 == 0 ->
        now_get_sheet_data env2 - now_get_sheet_data env1
          < inject_Z (CACHE_TTL_SECONDS cfg) ->
        get_sheet_data cfg false env2 st1 = (Return snap, st1, [])
        /\ remote_reads
             (tr1 ++ trace_of (get_sheet_data cfg false env2 st1)) = 1%nat).
Proof.
  assert (Hserve : forall env st,
      ~ fetched_at (_cached_data st) == 0 ->
      now_get_sheet_data env - fetched_at (_cached_data st)
        < inject_Z (CACHE_TTL_SECONDS cfg) ->
      get_sheet_data cfg false env st
        = (Return (headers (_cached_data st), rows (_cached_data st)),
           st, [])).
  { intros env st Hnz Hlt. apply get_sheet_data_cached.
    apply cache_fresh_iff. auto. }
  split; [exact Hserve|].
  intros env1 env2 st0 snap st1 tr1 Hcall Hreads Hnz Hlt.
  destruct (cache_fresh cfg false st0 (now_get_sheet_data env1)) eqn:C.
  { rewrite (get_sheet_data_cached _ _ _ _ C) in Hcall.
    inversion Hcall; subst. discriminate Hreads. }
  destruct (get_sheet_total cfg env1 st0) as [o [st' [tr [Hs [_ Hr0]]]]].
  destruct o as [sh|].
  2:{ rewrite (get_sheet_data_no_sheet _ _ _ _ _ _ C Hs) in Hcall.
      inversion Hcall; subst. rewrite Hr0 in Hreads. discriminate. }
  destruct (remote_read env1) as [e|data] eqn:Hr.
  { rewrite (get_sheet_data_read_raises _ _ _ _ _ _ _ _ C Hs Hr) in Hcall.
    discriminate. }
  rewrite (get_sheet_data_read _ _ _ _ _ _ _ _ C Hs Hr) in Hcall.
  inversion Hcall; subst; clear Hcall.
  match goal with |- get_sheet_data _ _ _ ?s = _ /\ _ =>
    assert (H2 := Hserve env2 s Hnz Hlt) end.
  simpl in H2. rewrite H2. split; [reflexivity|].
  unfold trace_of. simpl. now rewrite app_nil_r.
Qed.

Lemma get_sheet_data_served_from_cache_witness :
  get_sheet_data default_config false (Ex.unreachable 105) Ex.warm
    = (Return (headers Ex.john_alice, rows Ex.john_alice), Ex.warm, [])
  /\ remote_reads
       (trace_of (get_sheet_data default_config false (Ex.healthy 200) Ex.warm)
        ++ trace_of
             (get_sheet_data default_config false (Ex.healthy 210)
                (state_of (get_sheet_data default_config false
                             (Ex.healthy 200) Ex.warm))))
     = 1%nat.
Proof.
  split.
  - apply (proj1 (get_sheet_data_served_from_cache default_config)).
    + intro H. vm_compute in H. discriminate.
    + vm_compute. reflexivity.
  - refine (proj2 (proj2 (get_sheet_data_served_from_cache default_config)
                     (Ex.healthy 200) (Ex.healthy 210) Ex.warm
                     _ _ _ eq_refl _ _ _)).
    + vm_compute. reflexivity.
    + intro H. vm_compute in H. discriminate.
    + vm_compute. reflexivity.
Defined.

(** C3. When a call of [get_sheet_data] that is not served from the
    cache gets no handle from [get_sheet], it returns the empty snapshot
    and leaves the whole state unchanged ([fetched_at] included), with no
    remote read.  So if the snapshot was not being served to a non-forced
    call now, it is not served at any later time either: the next call
    tries to open the sheet again. *)
Theorem get_sheet_data_no_connection cfg force env st :
  cache_fresh cfg force st (now_get_sheet_data env) = false ->
  outcome_of (get_sheet cfg env st) = Return None ->
  get_sheet_data cfg force env st
    = (Return ([], []), st, trace_of (get_sheet cfg env st))
  /\ _cached_data (state_of (get_sheet_data cfg force env st))
     = _cached_data st
  /\ remote_reads (trace_of (get_sheet_data cfg force env st)) = 0%nat
  /\ forall env' force',
      cache_fresh cfg false st (now_get_sheet_data env) = false ->
      now_get_sheet_data env <= now_get_sheet_data env' ->
      now_get_sheet env <= now_get_sheet env' ->
      open_attempts
        (trace_of (get_sheet_data cfg force' env'
                     (state_of (get_sheet_data cfg force env st))))
      = 1%nat.
Proof.
  intros C Hnone.
  destruct (get_sheet_total cfg env st) as [o [st1 [tr1 [Hs [_ Hr0]]]]].
  rewrite Hs in Hnone. unfold outcome_of in Hnone. simpl in Hnone.
  inversion Hnone; subst o.
  destruct (get_sheet_None _ _ _ _ _ Hs) as [F [-> [e [Ho Htr]]]].
  rewrite (get_sheet_data_no_sheet _ _ _ _ _ _ C Hs), Hs.
  unfold trace_of, state_of. simpl.
  repeat split; auto.
  intros env' force' C0 Hle1 Hle2.
  apply get_sheet_data_stale_attempts.
  - eapply cache_fresh_false_later; eauto.
  - eapply sheet_fresh_false_later; eauto.
Qed.

Lemma get_sheet_data_no_connection_witness :
  get_sheet_data default_config false (Ex.unreachable 5000) Ex.warm
    = (Return ([], []), Ex.warm,
       trace_of (get_sheet default_config (Ex.unreachable 5000) Ex.warm))
  /\ open_attempts
       (trace_of
          (get_sheet_data default_config false (Ex.healthy 5001)
             (state_of (get_sheet_data default_config false
                          (Ex.unreachable 5000) Ex.warm))))
     = 1%nat.
Proof.
  destruct (get_sheet_data_no_connection
              default_config false (Ex.unreachable 5000) Ex.warm
              eq_refl eq_refl) as [Hret [_ [_ Hnext]]].
  split; [exact Hret|].
  apply Hnext.
  - reflexivity.
  - vm_compute. discriminate.
  - vm_compute. discriminate.
Defined.

(** C6. When a call of [get_sheet_data] is not served from the cache,
    gets a handle and the remote read answers [data], it returns the
    first row of [data] as headers and the remaining rows as rows; with
    at most one row the rows are empty, with none the headers are empty
    too.  The cache then holds exactly this snapshot, stamped with the
    time read at the start of the call. *)
Theorem get_sheet_data_successful_read cfg force env st sh data :
  cache_fresh cfg force st (now_get_sheet_data env) = false ->
  outcome_of (get_sheet cfg env st) = Return (Some sh) ->
  remote_read env = inr data ->
  outcome_of (get_sheet_data cfg force env st) = Return (hd [] data, tl data)
  /\ _cached_data (state_of (get_sheet_data cfg force env st))
     = {| headers := hd [] data; rows := tl data;
          fetched_at := now_get_sheet_data env |}
  /\ remote_reads (trace_of (get_sheet_data cfg force env st)) = 1%nat
  /\ (data = hd [] data :: tl data \/ (data = [] /\ hd [] data = []))
  /\ ((List.length data <= 1)%nat -> tl data = []).
Proof.
  intros C Hsome Hr.
  destruct (get_sheet_total cfg env st) as [o [st1 [tr1 [Hs [_ Hr0]]]]].
  rewrite Hs in Hsome. unfold outcome_of in Hsome. simpl in Hsome.
  inversion Hsome; subst o.
  rewrite (get_sheet_data_read _ _ _ _ _ _ _ _ C Hs Hr).
  unfold outcome_of, state_of, trace_of. simpl.
  split; [reflexivity | split; [reflexivity | split]].
  - rewrite remote_reads_app, Hr0. reflexivity.
  - split.
    + destruct data as [|r data]; [right | left]; simpl; auto.
    + destruct data as [|r [|r' data]]; simpl; intro Hlen;
        [reflexivity | reflexivity | lia].
Qed.

Lemma get_sheet_data_successful_read_witness :
  outcome_of (get_sheet_data default_config false (Ex.healthy 200) Ex.warm)
    = Return (hd [] Ex.table, tl Ex.table)
  /\ fetched_at
       (_cached_data
          (state_of (get_sheet_data default_config false
                       (Ex.healthy 200) Ex.warm)))
     = 200.
Proof.
  destruct (get_sheet_data_successful_read
              default_config false (Ex.healthy 200) Ex.warm
              (Worksheet 1) Ex.table eq_refl eq_refl eq_refl)
    as [Hret [Hst _]].
  split; [exact Hret | now rewrite Hst].
Defined.

(* ------------------------------------------------------------------ *)
(** ** Which remote failures reach the callers *)

(** C1, as the claim states it, fails: with a handle at hand, an error
    of the remote read comes out of [get_sheet_data] as an exception,
    and an error of the remote write comes out of [add_row]. *)
Lemma remote_read_write_errors_propagate :
  outcome_of (get_sheet_data default_config false (Ex.flaky 200) Ex.warm)
    = Raise (Exception "APIError 429")
  /\ outcome_of (add_row default_config Ex.form (Ex.flaky 200) Ex.warm)
     = Raise (Exception "APIError 503").
Proof. split; reflexivity. Qed.

(** C1 (amended). Failures to obtain a connection are the ones that are
    caught: [get_sheet] never raises, and when it yields no handle
    [get_sheet_data] (not served from the cache) returns the empty
    snapshot and [add_row] returns its redirect.  An exception of the
    remote read or of the remote write on an obtained handle is not
    caught: [get_sheet_data] raises [e] exactly when it is not served
    from the cache, has a handle and the read raises [e]; [add_row]
    raises [e] exactly when it has a handle and the write raises [e]. *)
Theorem remote_failures_caught_at_open cfg env st :
  (exists o, outcome_of (get_sheet cfg env st) = Return o)
  /\ (forall force,
        (cache_fresh cfg force st (now_get_sheet_data env) = false ->
         outcome_of (get_sheet cfg env st) = Return None ->
         outcome_of (get_sheet_data cfg force env st) = Return ([], []))
        /\ (forall e,
              outcome_of (get_sheet_data cfg force env st) = Raise e <->
              cache_fresh cfg force st (now_get_sheet_data env) = false
              /\ (exists sh,
                     outcome_of (get_sheet cfg env st) = Return (Some sh))
              /\ remote_read env = inl e))
  /\ (forall form,
        (outcome_of (get_sheet cfg env st) = Return None ->
         outcome_of (add_row cfg form env st) = Return (Redirect "/"))
        /\ (forall e,
              outcome_of (add_row cfg form env st) = Raise e <->
              (exists sh,
                  outcome_of (get_sheet cfg env st) = Return (Some sh))
              /\ remote_write env = Some e)).
Proof.
  destruct (get_sheet_total cfg env st) as [o [st1 [tr1 [Hs _]]]].
  rewrite Hs. unfold outcome_of at 1 2 4 5. cbn [fst].
  split; [eauto | split].
  - intro force. split.
    + intros C Ho. inversion Ho; subst o.
      now rewrite (get_sheet_data_no_sheet _ _ _ _ _ _ C Hs).
    + intro e.
      destruct (cache_fresh cfg force st (now_get_sheet_data env)) eqn:C.
      { rewrite (get_sheet_data_cached _ _ _ _ C). unfold outcome_of.
        cbn [fst]. split; [discriminate | intros [H _]; discriminate]. }
      destruct o as [sh|].
      2:{ rewrite (get_sheet_data_no_sheet _ _ _ _ _ _ C Hs).
          unfold outcome_of. cbn [fst].
          split; [discriminate | intros [_ [[sh H] _]]; discriminate]. }
      destruct (remote_read env) as [e'|data] eqn:Hr.
      * rewrite (get_sheet_data_read_raises _ _ _ _ _ _ _ _ C Hs Hr).
        unfold outcome_of. cbn [fst]. split.
        -- intro H. inversion H; subst. eauto.
        -- intros [_ [_ H]]. now inversion H.
      * rewrite (get_sheet_data_read _ _ _ _ _ _ _ _ C Hs Hr).
        unfold outcome_of. cbn [fst].
        split; [discriminate | intros [_ [_ H]]; discriminate].
  - intro form. split.
    + intro Ho. inversion Ho; subst o.
      now rewrite (add_row_no_sheet _ form _ _ _ _ Hs).
    + intro e. destruct o as [sh|].
      2:{ rewrite (add_row_no_sheet _ form _ _ _ _ Hs).
          unfold outcome_of. cbn [fst].
          split; [discriminate | intros [[sh H] _]; discriminate]. }
      destruct (remote_write env) as [e'|] eqn:Hw.
      * rewrite (add_row_write_raises _ form _ _ _ _ _ _ Hs Hw).
        unfold outcome_of. cbn [fst]. split.
        -- intro H. inversion H; subst. eauto.
        -- intros [_ H]. now inversion H.
      * rewrite (add_row_written _ form _ _ _ _ _ Hs Hw).
        unfold outcome_of. cbn [fst].
        split; [discriminate | intros [_ H]; discriminate].
Qed.

Lemma remote_failures_caught_at_open_witness :
  outcome_of
    (get_sheet_data default_config false (Ex.unreachable 5000) Ex.warm)
    = Return ([], [])
  /\ outcome_of (add_row default_config Ex.form (Ex.unreachable 5000) Ex.warm)
     = Return (Redirect "/").
Proof.
  destruct (remote_failures_caught_at_open
              default_config (Ex.unreachable 5000) Ex.warm)
    as [_ [Hdata Hadd]].
  split.
  - apply (proj1 (Hdata false)); reflexivity.
  - apply (proj1 (Hadd Ex.form)); reflexivity.
Defined.

(* ------------------------------------------------------------------ *)
(** ** Appending a row *)

(** C8. [add_row] never changes the snapshot cache and never reads the
    remote table; with a handle at hand its last external call is the
    append of [[name, email, age]] through that handle.  A non-forced
    read after it, within the TTL of the cached snapshot, is therefore
    served the snapshot of before the append. *)
Theorem add_row_leaves_snapshot cfg form env st :
  _cached_data (state_of (add_row cfg form env st)) = _cached_data st
  /\ remote_reads (trace_of (add_row cfg form env st)) = 0%nat
  /\ (forall sh,
        outcome_of (get_sheet cfg env st) = Return (Some sh) ->
        trace_of (add_row cfg form env st)
        = trace_of (get_sheet cfg env st)
          ++ [EvAppendRow sh
                [form "name"%string; form "email"%string;
                 form "age"%string]])
  /\ (forall env',
        ~ fetched_at (_cached_data st) == 0 ->
        now_get_sheet_data env' - fetched_at (_cached_data st)
          < inject_Z (CACHE_TTL_SECONDS cfg) ->
        get_sheet_data cfg false env' (state_of (add_row cfg form env st))
        = (Return (headers (_cached_data st), rows (_cached_data st)),
           state_of (add_row cfg form env st), [])).
Proof.
  destruct (get_sheet_total cfg env st) as [o [st1 [tr1 [Hs [Hc Hr0]]]]].
  assert (Hrun : state_of (add_row cfg form env st) = st1
                 /\ remote_reads (trace_of (add_row cfg form env st)) = 0%nat
                 /\ forall sh, o = Some sh ->
                      trace_of (add_row cfg form env st)
                      = tr1 ++ [EvAppendRow sh
                                  [form "name"%string; form "email"%string;
                                   form "age"%string]]).
  { destruct o as [sh|].
    - destruct (remote_write env) as [e|] eqn:Hw.
      + rewrite (add_row_write_raises _ form _ _ _ _ _ _ Hs Hw).
        unfold state_of, trace_of. simpl.
        rewrite remote_reads_app, Hr0.
        repeat split. intros sh' H. now inversion H.
      + rewrite (add_row_written _ form _ _ _ _ _ Hs Hw).
        unfold state_of, trace_of. simpl.
        rewrite remote_reads_app, Hr0.
        repeat split. intros sh' H. now inversion H.
    - rewrite (add_row_no_sheet _ form _ _ _ _ Hs).
      unfold state_of, trace_of. simpl.
      repeat split; auto. discriminate. }
  destruct Hrun as [Hst [Hreads Htr]].
  rewrite Hst. split; [exact Hc | split; [exact Hreads | split]].
  - intros sh Ho. rewrite Hs in Ho |- *. unfold outcome_of in Ho.
    simpl in Ho. inversion Ho; subst o. now apply Htr.
  - intros env' Hnz Hlt. rewrite <- Hc in *.
    apply get_sheet_data_cached. apply cache_fresh_iff. auto.
Qed.

Lemma add_row_leaves_snapshot_witness :
  trace_of (add_row default_config Ex.form (Ex.healthy 105) Ex.warm)
    = [EvAppendRow (Worksheet 1)
         [Some "Bob"; Some "b@z.com"; Some "41"]%string]
  /\ outcome_of
       (get_sheet_data default_config false (Ex.healthy 106)
          (state_of (add_row default_config Ex.form (Ex.healthy 105) Ex.warm)))
     = Return (headers Ex.john_alice, rows Ex.john_alice).
Proof.
  destruct (add_row_leaves_snapshot
              default_config Ex.form (Ex.healthy 105) Ex.warm)
    as [_ [_ [Htr Hread]]].
  split.
  - apply (Htr (Worksheet 1)). reflexivity.
  - rewrite (Hread (Ex.healthy 106)).
    + reflexivity.
    + intro H. vm_compute in H. discriminate.
    + vm_compute. reflexivity.
Defined.

(* ------------------------------------------------------------------ *)
(** ** The index page *)

(** C10. With the table shown, a positive [MAX_VISIBLE_ROWS] and a
    snapshot of more rows than that, the index page carries exactly the
    last [MAX_VISIBLE_ROWS] rows of the snapshot: a suffix of the rows,
    of that length. *)
Theorem index_shows_last_rows cfg env st hs rs st' tr :
  SHOW_TABLE cfg = true ->
  (0 < MAX_VISIBLE_ROWS cfg)%Z ->
  (MAX_VISIBLE_ROWS cfg < Z.of_nat (List.length rs))%Z ->
  get_sheet_data cfg false env st = (Return (hs, rs), st', tr) ->
  exists shown,
    index cfg env st = (Return (IndexPage hs shown None true), st', tr)
    /\ shown
       = skipn (List.length rs - Z.to_nat (MAX_VISIBLE_ROWS cfg))%nat rs
    /\ Z.of_nat (List.length shown) = MAX_VISIBLE_ROWS cfg
    /\ exists front, rs = front ++ shown.
Proof.
  intros Hshow Hpos Hlen Hd.
  exists (skipn (List.length rs - Z.to_nat (MAX_VISIBLE_ROWS cfg))%nat rs).
  split; [|split; [reflexivity | split]].
  - unfold index. cbv beta iota delta [bind]. rewrite Hd. cbv beta iota.
    assert (Hrs : PyList.truthy rs = true).
    { destruct rs; [simpl in Hlen; lia | reflexivity]. }
    rewrite Hrs, andb_false_r, Hshow.
    assert (Hn : PyList.truthy_int (MAX_VISIBLE_ROWS cfg) = true).
    { unfold PyList.truthy_int. apply negb_true_iff. apply Z.eqb_neq. lia. }
    assert (Hl : (MAX_VISIBLE_ROWS cfg <? Z.of_nat (List.length rs))%Z = true)
      by (apply Z.ltb_lt; exact Hlen).
    rewrite Hn, Hl. cbv beta iota delta [andb ret]. rewrite app_nil_r.
    unfold PyList.slice_from.
    assert (Hneg : (0 <=? - MAX_VISIBLE_ROWS cfg)%Z = false)
      by (apply Z.leb_gt; lia).
    rewrite Hneg.
    replace (Z.to_nat (Z.of_nat (List.length rs) + - MAX_VISIBLE_ROWS cfg))
      with (List.length rs - Z.to_nat (MAX_VISIBLE_ROWS cfg))%nat by lia.
    reflexivity.
  - rewrite length_skipn. lia.
  - eexists. symmetry. apply firstn_skipn.
Qed.

Lemma index_shows_last_rows_witness :
  index Ex.last_one (Ex.healthy 105) Ex.warm
  = (Return
       (IndexPage ["Name"; "Email"; "Age"] [["Alice"; "a@y.com"; "25"]]
          None true)%string,
     Ex.warm, []).
Proof.
  destruct (index_shows_last_rows
              Ex.last_one (Ex.healthy 105) Ex.warm
              (headers Ex.john_alice) (rows Ex.john_alice) Ex.warm []
              eq_refl eq_refl eq_refl eq_refl)
    as [shown [Hidx [Hshown _]]].
  rewrite Hidx, Hshown. reflexivity.
Defined.

(* ------------------------------------------------------------------ *)
(** ** Search *)

(** C4, as the claim states it, fails on a query with surrounding
    whitespace: the query [" john"] is not empty, John's row is in the
    result, and no cell of that row contains [" john"] in any case. *)
Lemma search_rows_trims_query :
  search_rows default_config (Some " john"%string) (Ex.healthy 105) Ex.warm
  = (Return
       (JsonTable ["Name"; "Email"; "Age"] [["John"; "j@x.com"; "30"]])%string,
     Ex.warm, [])
  /\ ~ (exists cell,
           In cell ["John"; "j@x.com"; "30"]%string
           /\ PyStr.SubstringCI " john" cell).
Proof.
  split; [reflexivity|].
  intros [cell [Hin H]]. unfold PyStr.SubstringCI in H.
  apply contains_iff in H.
  simpl in Hin. destruct Hin as [<-|[<-|[<-|[]]]]; vm_compute in H;
    discriminate.
Qed.

(** On these strings [lower] works character by character, so it goes
    through concatenation, in both directions. *)
Lemma lower_app (a b : string) :
  PyStr.lower (a ++ b) = (PyStr.lower a ++ PyStr.lower b)%string.
Proof. induction a as [|c a IH]; simpl; [reflexivity | now rewrite IH]. Qed.

Lemma lower_app_inv (s x y : string) :
  PyStr.lower s = (x ++ y)%string ->
  exists a b, s = (a ++ b)%string /\ PyStr.lower a = x /\ PyStr.lower b = y.
Proof.
  revert s. induction x as [|c x IH]; intros s H.
  - exists EmptyString, s. auto.
  - destruct s as [|d s]; [discriminate|]. simpl in H. inversion H as [[Hc Hs]].
    destruct (IH s Hs) as [a [b [-> [Ha Hb]]]].
    exists (String d a), b. simpl. rewrite Ha. auto.
Qed.

(** [y] occurs in the lowered [cell] exactly when some substring of
    [cell] is lowered to [y]. *)
Lemma Substring_lower_iff (y cell : string) :
  PyStr.Substring y (PyStr.lower cell) <->
  exists a m b, cell = (a ++ m ++ b)%string /\ PyStr.lower m = y.
Proof.
  split.
  - intros [x [z H]].
    destruct (lower_app_inv _ _ _ H) as [a [r [-> [_ Hr]]]].
    destruct (lower_app_inv _ _ _ Hr) as [m [b [-> [Hm _]]]].
    exists a, m, b. auto.
  - intros [a [m [b [-> Hm]]]]. exists (PyStr.lower a), (PyStr.lower b).
    now rewrite !lower_app, Hm.
Qed.

(** C4 (amended). For a missing, empty or whitespace-only [q],
    [search_rows] answers an empty table whatever the state, with no
    external call.  For any other [q], served the snapshot [(hs, rs)],
    the rows kept by the filter are exactly the rows of [rs] for which
    the normalised query [q.strip().lower()] is a substring of
    [str(cell).lower()] for at least one cell, and the answer carries
    these rows after the limit of lines 136-137.  On the strings of this
    development (code points below 256, where [str.lower] works
    character by character) this is the same as: some substring of a
    cell is equal to the stripped [q] up to case, that is, after
    [lower]. *)
Theorem search_rows_filter cfg (q : option string) env st :
  (q = None \/ (exists s, q = Some s /\ PyStr.all_space s = true) ->
   search_rows cfg q env st = (Return (JsonTable [] []), st, []))
  /\ (forall s hs rs st' tr,
        q = Some s ->
        PyStr.all_space s = false ->
        get_sheet_data cfg false env st = (Return (hs, rs), st', tr) ->
        exists matches,
          search_rows cfg q env st
          = (Return (JsonTable hs (limit_results cfg matches)), st', tr)
          /\ (forall row,
                In row matches <->
                In row rs
                /\ exists cell,
                    In cell row
                    /\ PyStr.Substring (PyStr.lower (PyStr.strip s))
                                       (PyStr.lower cell))
          /\ (forall row,
                In row matches <->
                In row rs
                /\ exists cell a m b,
                    In cell row
                    /\ cell = (a ++ m ++ b)%string
                    /\ PyStr.lower m = PyStr.lower (PyStr.strip s))).
Proof.
  split.
  - intro Hq. apply search_rows_empty_query.
    rewrite normalize_query_truthy.
    destruct Hq as [-> | [s [-> Hs]]]; [reflexivity | now rewrite Hs].
  - intros s hs rs st' tr -> Hs Hd.
    exists (filter (row_matches (normalize_query (Some s))) rs).
    assert (Hsub : forall row,
      In row (filter (row_matches (normalize_query (Some s))) rs) <->
      In row rs
      /\ exists cell,
          In cell row
          /\ PyStr.Substring (PyStr.lower (PyStr.strip s)) (PyStr.lower cell)).
    { intro row. rewrite filter_In, row_matches_iff, normalize_query_Some.
      reflexivity. }
    split; [|split].
    + apply search_rows_served; [|exact Hd].
      rewrite normalize_query_truthy. now rewrite Hs.
    + exact Hsub.
    + intro row. rewrite Hsub. split.
      * intros [Hin [cell [Hc Hsubstr]]]. split; [exact Hin|].
        apply Substring_lower_iff in Hsubstr.
        destruct Hsubstr as [a [m [b [Hcell Hm]]]].
        exists cell, a, m, b. auto.
      * intros [Hin [cell [a [m [b [Hc [Hcell Hm]]]]]]]. split; [exact Hin|].
        exists cell. split; [exact Hc|].
        apply Substring_lower_iff. exists a, m, b. auto.
Qed.

Lemma search_rows_filter_witness :
  search_rows default_config (Some "   "%string) (Ex.healthy 105) Ex.warm
  = (Return (JsonTable [] []), Ex.warm, [])
  /\ exists matches,
      search_rows default_config (Some " JOHN "%string) (Ex.healthy 105)
        Ex.warm
      = (Return
           (JsonTable (headers Ex.john_alice)
              (limit_results default_config matches)),
         Ex.warm, [])
      /\ In ["John"; "j@x.com"; "30"]%string matches.
Proof.
  split.
  - apply (proj1 (search_rows_filter default_config (Some "   "%string)
                    (Ex.healthy 105) Ex.warm)).
    right. eexists. split; reflexivity.
  - destruct (proj2 (search_rows_filter default_config (Some " JOHN "%string)
                       (Ex.healthy 105) Ex.warm)
                _ (headers Ex.john_alice) (rows Ex.john_alice) Ex.warm []
                eq_refl eq_refl eq_refl)
      as [matches [Hrun [_ Hin]]].
    exists matches. split; [exact Hrun|].
    apply Hin. split; [left; reflexivity|].
    exists "John"%string, EmptyString, "John"%string, EmptyString.
    split; [left; reflexivity | split; reflexivity].
Defined.

Lemma limit_results_prefix cfg (filtered : list (list string)) :
  exists rest, filtered = limit_results cfg filtered ++ rest.
Proof.
  unfold limit_results. destruct (_ && _).
  - apply slice_to_prefix.
  - exists []. now rewrite app_nil_r.
Qed.

Lemma limit_results_positive cfg (filtered : list (list string)) :
  (0 < MAX_SEARCH_RESULTS cfg)%Z ->
  limit_results cfg filtered
  = firstn (Z.to_nat (MAX_SEARCH_RESULTS cfg)) filtered.
Proof.
  intro Hpos. unfold limit_results, PyList.truthy_int, PyList.slice_to.
  assert (Hnz : (MAX_SEARCH_RESULTS cfg =? 0)%Z = false)
    by (apply Z.eqb_neq; lia).
  assert (Hge : (0 <=? MAX_SEARCH_RESULTS cfg)%Z = true)
    by (apply Z.leb_le; lia).
  rewrite Hnz, Hge. simpl.
  destruct (MAX_SEARCH_RESULTS cfg <? Z.of_nat (List.length filtered))%Z
    eqn:Hlt; [reflexivity|].
  apply Z.ltb_ge in Hlt. symmetry. apply firstn_all2. lia.
Qed.

Lemma limit_results_zero cfg (filtered : list (list string)) :
  MAX_SEARCH_RESULTS cfg = 0%Z -> limit_results cfg filtered = filtered.
Proof.
  intro Hz. unfold limit_results, PyList.truthy_int. now rewrite Hz.
Qed.

(** C5, as the claim states it, fails when [MAX_SEARCH_RESULTS] is 0:
    the query ["com"] then returns both rows, more than the configured
    maximum. *)
Lemma search_rows_zero_limit_exceeded :
  search_rows Ex.unlimited (Some "com"%string) (Ex.healthy 105) Ex.warm
  = (Return (JsonTable (headers Ex.john_alice) (rows Ex.john_alice)),
     Ex.warm, [])
  /\ ~ (Z.of_nat (List.length (rows Ex.john_alice))
        <= MAX_SEARCH_RESULTS Ex.unlimited)%Z.
Proof. split; [reflexivity | vm_compute; intro H; now apply H]. Qed.

(** C5 (amended). For a query that is not empty or whitespace-only,
    served the snapshot [(hs, rs)], the rows of the answer are always a
    prefix of the full list of matching rows in snapshot order; when
    [MAX_SEARCH_RESULTS] is positive they are its first
    [MAX_SEARCH_RESULTS] elements, so at most that many. *)
Theorem search_rows_limit cfg s env st hs rs st' tr :
  PyStr.all_space s = false ->
  get_sheet_data cfg false env st = (Return (hs, rs), st', tr) ->
  exists result,
    search_rows cfg (Some s) env st = (Return (JsonTable hs result), st', tr)
    /\ (exists rest,
           filter (row_matches (normalize_query (Some s))) rs
           = result ++ rest)
    /\ ((0 < MAX_SEARCH_RESULTS cfg)%Z ->
        result
        = firstn (Z.to_nat (MAX_SEARCH_RESULTS cfg))
            (filter (row_matches (normalize_query (Some s))) rs)
        /\ (Z.of_nat (List.length result) <= MAX_SEARCH_RESULTS cfg)%Z).
Proof.
  intros Hs Hd.
  exists (limit_results cfg
            (filter (row_matches (normalize_query (Some s))) rs)).
  split; [|split].
  - apply search_rows_served; [|exact Hd].
    rewrite normalize_query_truthy. now rewrite Hs.
  - apply limit_results_prefix.
  - intro Hpos. rewrite (limit_results_positive _ _ Hpos).
    split; [reflexivity|].
    pose proof (firstn_le_length (Z.to_nat (MAX_SEARCH_RESULTS cfg))
                  (filter (row_matches (normalize_query (Some s))) rs)).
    lia.
Qed.

Lemma search_rows_limit_witness :
  search_rows Ex.last_one (Some "com"%string) (Ex.healthy 105) Ex.warm
  = (Return
       (JsonTable ["Name"; "Email"; "Age"] [["John"; "j@x.com"; "30"]])%string,
     Ex.warm, []).
Proof.
  destruct (search_rows_limit
              Ex.last_one "com"%string (Ex.healthy 105) Ex.warm
              (headers Ex.john_alice) (rows Ex.john_alice) Ex.warm []
              eq_refl eq_refl)
    as [result [Hrun [_ Hcut]]].
  destruct (Hcut eq_refl) as [Hres _].
  rewrite Hrun, Hres. reflexivity.
Defined.

(** C9. When [MAX_SEARCH_RESULTS] is 0, [search_rows] cuts nothing: for
    every query that is not empty or whitespace-only and every snapshot
    it is served, the answer carries all the matching rows. *)
Theorem search_rows_zero_is_unlimited cfg s env st hs rs st' tr :
  MAX_SEARCH_RESULTS cfg = 0%Z ->
  PyStr.all_space s = false ->
  get_sheet_data cfg false env st = (Return (hs, rs), st', tr) ->
  search_rows cfg (Some s) env st
  = (Return
       (JsonTable hs (filter (row_matches (normalize_query (Some s))) rs)),
     st', tr).
Proof.
  intros Hz Hs Hd.
  rewrite (search_rows_served cfg (Some s) env st hs rs st' tr); [|
    rewrite normalize_query_truthy; now rewrite Hs | exact Hd].
  now rewrite (limit_results_zero _ _ Hz).
Qed.

Lemma search_rows_zero_is_unlimited_witness :
  response_rows
    match outcome_of
            (search_rows Ex.unlimited (Some "com"%string) (Ex.healthy 105)
               Ex.warm)
    with
    | Return r => r
    | Raise _ => Redirect EmptyString
    end
  = rows Ex.john_alice.
Proof.
  rewrite (search_rows_zero_is_unlimited
             Ex.unlimited "com"%string (Ex.healthy 105) Ex.warm
             (headers Ex.john_alice) (rows Ex.john_alice) Ex.warm []
             eq_refl eq_refl eq_refl).
  reflexivity.
Defined.

(* ------------------------------------------------------------------ *)
(** ** The latest row *)

Lemma list_getitem_last {A} (front : list A) (r : A) :
  list_getitem (front ++ [r]) (-1) = Some r.
Proof.
  unfold list_getitem. rewrite length_app. cbn [List.length].
  replace (0 <=? -1)%Z with false by reflexivity.
  assert (H : (0 <=? Z.of_nat (List.length front + 1) + -1)%Z = true)
    by (apply Z.leb_le; lia).
  rewrite H.
  replace (Z.to_nat (Z.of_nat (List.length front + 1) + -1))
    with (List.length front) by lia.
  rewrite nth_error_app2 by lia. now rewrite Nat.sub_diag.
Qed.

Lemma truthy_snoc {A} (front : list A) (r : A) :
  PyList.truthy (front ++ [r]) = true.
Proof. destruct front; reflexivity. Qed.

(** What [get_latest] answers, given the snapshot it is served. *)
Lemma get_latest_served cfg env st hs rs st' tr :
  get_sheet_data cfg false env st = (Return (hs, rs), st', tr) ->
  get_latest cfg env st = (Return (JsonRow (last rs [])), st', tr).
Proof.
  intro Hd. unfold get_latest. cbv beta iota delta [bind]. rewrite Hd.
  cbv beta iota.
  destruct rs as [|r0 rs0] using rev_ind.
  - destruct hs; cbv beta iota delta [PyList.truthy negb andb ret];
      now rewrite app_nil_r.
  - rewrite truthy_snoc, andb_false_r. cbv beta iota delta [negb].
    rewrite list_getitem_last, last_last.
    cbv beta iota delta [ret]. now rewrite app_nil_r.
Qed.

Lemma get_latest_raises cfg env st e st' tr :
  get_sheet_data cfg false env st = (Raise e, st', tr) ->
  get_latest cfg env st = (Raise e, st', tr).
Proof.
  intro Hd. unfold get_latest. cbv beta iota delta [bind]. now rewrite Hd.
Qed.

(** The snapshot cache is out of the reach of [add_row]. *)
Lemma add_row_cached_data cfg form env st :
  _cached_data (state_of (add_row cfg form env st)) = _cached_data st.
Proof.
  destruct (get_sheet_total cfg env st) as [o [st1 [tr1 [Hs [Hc _]]]]].
  destruct o as [sh|].
  - destruct (remote_write env) as [e|] eqn:Hw.
    + now rewrite (add_row_write_raises _ form _ _ _ _ _ _ Hs Hw).
    + now rewrite (add_row_written _ form _ _ _ _ _ Hs Hw).
  - now rewrite (add_row_no_sheet _ form _ _ _ _ Hs).
Qed.

(** X1. Served a snapshot, [get_latest] answers its last row; with no
    rows (an empty or headers-only snapshot) it answers the empty row. *)
Theorem get_latest_last_row cfg env st hs rs st' tr :
  get_sheet_data cfg false env st = (Return (hs, rs), st', tr) ->
  exists row,
    get_latest cfg env st = (Return (JsonRow row), st', tr)
    /\ (rs = [] -> row = [])
    /\ (forall front r, rs = front ++ [r] -> row = r).
Proof.
  intro Hd. exists (last rs []). split; [|split].
  - exact (get_latest_served _ _ _ _ _ _ _ Hd).
  - now intros ->.
  - intros front r ->. apply last_last.
Qed.

Lemma get_latest_last_row_witness :
  get_latest default_config (Ex.healthy 200) Ex.warm
  = (Return (JsonRow ["Bob"; "b@z.com"; "41"]%string),
     state_of (get_sheet_data default_config false (Ex.healthy 200) Ex.warm),
     [EvGetAllValues (Worksheet 1)])
  /\ outcome_of (get_latest default_config (ExMore.headers_only 200) Ex.warm)
     = Return (JsonRow []).
Proof.
  split.
  - destruct (get_latest_last_row
                default_config (Ex.healthy 200) Ex.warm
                _ _ _ _ eq_refl) as [row [Hrun [_ Hlast]]].
    rewrite Hrun.
    rewrite (Hlast [["John"; "j@x.com"; "30"]; ["Alice"; "a@y.com"; "25"]]%string
               ["Bob"; "b@z.com"; "41"]%string eq_refl).
    reflexivity.
  - destruct (get_latest_last_row
                default_config (ExMore.headers_only 200) Ex.warm
                _ _ _ _ eq_refl) as [row [Hrun [Hnil _]]].
    rewrite Hrun, (Hnil eq_refl). reflexivity.
Defined.

(** X2. [get_latest] has no effect and no failure of its own: it ends in
    the state and with the trace of the [get_sheet_data] it calls, and it
    raises exactly the exceptions that call raises (its [rows[-1]] never
    raises an [IndexError]). *)
Theorem get_latest_adds_no_failure cfg env st :
  state_of (get_latest cfg env st)
  = state_of (get_sheet_data cfg false env st)
  /\ trace_of (get_latest cfg env st)
     = trace_of (get_sheet_data cfg false env st)
  /\ forall e,
      outcome_of (get_latest cfg env st) = Raise e <->
      outcome_of (get_sheet_data cfg false env st) = Raise e.
Proof.
  destruct (get_sheet_data cfg false env st) as [[[[hs rs]|e'] st'] tr] eqn:Hd.
  - rewrite (get_latest_served _ _ _ _ _ _ _ Hd).
    unfold state_of, trace_of, outcome_of. simpl.
    repeat split; auto; intro H; discriminate H.
  - rewrite (get_latest_raises _ _ _ _ _ _ Hd).
    unfold state_of, trace_of, outcome_of. simpl.
    repeat split; auto; intro H; inversion H; reflexivity.
Qed.

Lemma get_latest_adds_no_failure_witness :
  outcome_of (get_latest default_config (Ex.flaky 200) Ex.warm)
  = Raise (Exception "APIError 429").
Proof.
  apply (proj2 (proj2 (get_latest_adds_no_failure
                         default_config (Ex.flaky 200) Ex.warm))).
  reflexivity.
Defined.

(** X3. After an [add_row], whatever its outcome, a [get_latest] within
    the TTL of the cached snapshot still answers the last row of that
    snapshot, not the appended row, and makes no external call. *)
Theorem get_latest_after_add_row_is_stale cfg form env env' st front r :
  rows (_cached_data st) = front ++ [r] ->
  ~ fetched_at (_cached_data st) == 0 ->
  now_get_sheet_data env' - fetched_at (_cached_data st)
    < inject_Z (CACHE_TTL_SECONDS cfg) ->
  get_latest cfg env' (state_of (add_row cfg form env st))
  = (Return (JsonRow r), state_of (add_row cfg form env st), []).
Proof.
  intros Hrows Hnz Hlt.
  pose proof (add_row_cached_data cfg form env st) as Hc.
  rewrite (get_latest_served cfg env' _
             (headers (_cached_data st)) (rows (_cached_data st))
             (state_of (add_row cfg form env st)) []).
  - now rewrite Hrows, last_last.
  - rewrite <- Hc. apply get_sheet_data_cached. apply cache_fresh_iff.
    rewrite Hc. auto.
Qed.

Lemma get_latest_after_add_row_is_stale_witness :
  outcome_of
    (get_latest default_config (Ex.healthy 106)
       (state_of (add_row default_config Ex.form (Ex.healthy 105) Ex.warm)))
  = Return (JsonRow ["Alice"; "a@y.com"; "25"]%string).
Proof.
  rewrite (get_latest_after_add_row_is_stale
             default_config Ex.form (Ex.healthy 105) (Ex.healthy 106) Ex.warm
             [["John"; "j@x.com"; "30"]%string]
             ["Alice"; "a@y.com"; "25"]%string eq_refl).
  - reflexivity.
  - intro H. vm_compute in H. discriminate.
  - vm_compute. reflexivity.
Defined.

(* ------------------------------------------------------------------ *)
(** ** More on the index page *)

Lemma index_raises cfg env st e st' tr :
  get_sheet_data cfg false env st = (Raise e, st', tr) ->
  index cfg env st = (Raise e, st', tr).
Proof.
  intro Hd. unfold index. cbv beta iota delta [bind]. now rewrite Hd.
Qed.

Lemma index_served_nothing cfg env st st' tr :
  get_sheet_data cfg false env st = (Return ([], []), st', tr) ->
  index cfg env st
  = (Return (IndexPage [] [] (Some credentials_text) (SHOW_TABLE cfg)),
     st', tr).
Proof.
  intro Hd. unfold index. cbv beta iota delta [bind]. rewrite Hd.
  cbv beta iota delta [PyList.truthy negb andb ret]. now rewrite app_nil_r.
Qed.

Lemma index_served_hidden cfg env st hs rs st' tr :
  SHOW_TABLE cfg = false ->
  get_sheet_data cfg false env st = (Return (hs, rs), st', tr) ->
  exists msg,
    index cfg env st = (Return (IndexPage [] [] msg false), st', tr).
Proof.
  intros Hshow Hd. unfold index. cbv beta iota delta [bind]. rewrite Hd.
  cbv beta iota. rewrite Hshow.
  destruct (negb (PyList.truthy hs) && negb (PyList.truthy rs));
    cbv beta iota delta [ret]; rewrite app_nil_r; eauto.
Qed.

Lemma index_served_shown cfg env st hs rs st' tr :
  SHOW_TABLE cfg = true ->
  PyList.truthy hs || PyList.truthy rs = true ->
  get_sheet_data cfg false env st = (Return (hs, rs), st', tr) ->
  index cfg env st
  = (Return
       (IndexPage hs
          (if PyList.truthy_int (MAX_VISIBLE_ROWS cfg)
              && (MAX_VISIBLE_ROWS cfg <? Z.of_nat (List.length rs))%Z
           then PyList.slice_from rs (- MAX_VISIBLE_ROWS cfg)
           else rs)
          None true),
     st', tr).
Proof.
  intros Hshow Hne Hd. unfold index. cbv beta iota delta [bind]. rewrite Hd.
  cbv beta iota. rewrite <- negb_orb, Hne, Hshow.
  cbv beta iota delta [negb ret]. now rewrite app_nil_r.
Qed.

Lemma truthy_or_iff {A B} (l : list A) (l' : list B) :
  PyList.truthy l || PyList.truthy l' = true <-> l <> [] \/ l' <> [].
Proof.
  destruct l, l'; simpl; split; intro H; auto; try discriminate;
    try (left; discriminate); try (right; discriminate).
  destruct H as [H|H]; now elim H.
Qed.

(** X4. With [SHOW_TABLE] off, every page [index] returns carries no
    headers and no rows, whatever snapshot it was served. *)
Theorem index_hidden_table_exposes_nothing cfg env st r :
  SHOW_TABLE cfg = false ->
  outcome_of (index cfg env st) = Return r ->
  exists msg, r = IndexPage [] [] msg false.
Proof.
  intros Hshow Hr.
  destruct (get_sheet_data cfg false env st) as [[[[hs rs]|e] st'] tr] eqn:Hd.
  - destruct (index_served_hidden _ _ _ _ _ _ _ Hshow Hd) as [msg Hi].
    rewrite Hi in Hr. unfold outcome_of in Hr. simpl in Hr.
    inversion Hr. eauto.
  - rewrite (index_raises _ _ _ _ _ _ Hd) in Hr. discriminate.
Qed.

Lemma index_hidden_table_exposes_nothing_witness :
  exists msg,
    IndexPage [] [] None false = IndexPage [] [] msg false.
Proof.
  apply (index_hidden_table_exposes_nothing
           default_config (Ex.healthy 105) Ex.warm
           (IndexPage [] [] None false)); reflexivity.
Defined.

(** X5. A remote table that is read successfully but is empty (no row,
    or one empty row) is served as the empty snapshot, so [index] shows
    the credentials error message although nothing failed. *)
Theorem index_empty_sheet_shows_credentials_error cfg env st sh data :
  cache_fresh cfg false st (now_get_sheet_data env) = false ->
  outcome_of (get_sheet cfg env st) = Return (Some sh) ->
  remote_read env = inr data ->
  data = [] \/ data = [[]] ->
  outcome_of (index cfg env st)
  = Return (IndexPage [] [] (Some credentials_text) (SHOW_TABLE cfg)).
Proof.
  intros C Hsome Hr Hdata.
  destruct (get_sheet_total cfg env st) as [o [st1 [tr1 [Hs _]]]].
  rewrite Hs in Hsome. unfold outcome_of in Hsome. simpl in Hsome.
  inversion Hsome; subst o.
  pose proof (get_sheet_data_read _ _ _ _ _ _ _ _ C Hs Hr) as Hd.
  assert (Hempty : hd [] data = [] /\ tl data = [])
    by (destruct Hdata as [-> | ->]; split; reflexivity).
  destruct Hempty as [Hh Ht]. rewrite Hh, Ht in Hd.
  now rewrite (index_served_nothing _ _ _ _ _ Hd).
Qed.

Lemma index_empty_sheet_shows_credentials_error_witness :
  outcome_of (index default_config (ExMore.empty_sheet 200) Ex.warm)
  = Return (IndexPage [] [] (Some credentials_text) false).
Proof.
  apply (index_empty_sheet_shows_credentials_error
           default_config (ExMore.empty_sheet 200) Ex.warm
           (Worksheet 1) [[]]); try reflexivity.
  right. reflexivity.
Defined.

(** X6. With [SHOW_TABLE] on and a snapshot that is not empty, [index]
    shows the headers and all the rows, unchanged, when
    [MAX_VISIBLE_ROWS] is 0 or is at least the number of rows. *)
Theorem index_shows_all_rows cfg env st hs rs st' tr :
  SHOW_TABLE cfg = true ->
  hs <> [] \/ rs <> [] ->
  MAX_VISIBLE_ROWS cfg = 0%Z
  \/ (Z.of_nat (List.length rs) <= MAX_VISIBLE_ROWS cfg)%Z ->
  get_sheet_data cfg false env st = (Return (hs, rs), st', tr) ->
  index cfg env st = (Return (IndexPage hs rs None true), st', tr).
Proof.
  intros Hshow Hne Hmax Hd.
  rewrite (index_served_shown _ _ _ _ _ _ _ Hshow
             (proj2 (truthy_or_iff hs rs) Hne) Hd).
  assert (Hcut : PyList.truthy_int (MAX_VISIBLE_ROWS cfg)
                 && (MAX_VISIBLE_ROWS cfg <? Z.of_nat (List.length rs))%Z
                 = false).
  { destruct Hmax as [Hz | Hle].
    - unfold PyList.truthy_int. now rewrite Hz.
    - apply andb_false_iff. right. apply Z.ltb_ge. exact Hle. }
  now rewrite Hcut.
Qed.

Lemma index_shows_all_rows_witness :
  index Ex.unlimited (Ex.healthy 105) Ex.warm
  = (Return
       (IndexPage (headers Ex.john_alice) (rows Ex.john_alice) None true),
     Ex.warm, []).
Proof.
  apply index_shows_all_rows.
  - reflexivity.
  - left. discriminate.
  - left. reflexivity.
  - reflexivity.
Defined.

(** X7. With [SHOW_TABLE] on and a negative [MAX_VISIBLE_ROWS] = -k,
    the slice [rows[-MAX_VISIBLE_ROWS:]] is [rows[k:]]: [index] shows the
    rows without their first k (none when there are at most k). *)
Theorem index_negative_limit_drops_first_rows cfg env st hs rs st' tr :
  SHOW_TABLE cfg = true ->
  hs <> [] \/ rs <> [] ->
  (MAX_VISIBLE_ROWS cfg < 0)%Z ->
  get_sheet_data cfg false env st = (Return (hs, rs), st', tr) ->
  index cfg env st
  = (Return
       (IndexPage hs (skipn (Z.to_nat (- MAX_VISIBLE_ROWS cfg)) rs) None true),
     st', tr).
Proof.
  intros Hshow Hne Hneg Hd.
  rewrite (index_served_shown _ _ _ _ _ _ _ Hshow
             (proj2 (truthy_or_iff hs rs) Hne) Hd).
  assert (Hcut : PyList.truthy_int (MAX_VISIBLE_ROWS cfg)
                 && (MAX_VISIBLE_ROWS cfg <? Z.of_nat (List.length rs))%Z
                 = true).
  { apply andb_true_iff. split.
    - unfold PyList.truthy_int. apply negb_true_iff, Z.eqb_neq. lia.
    - apply Z.ltb_lt. lia. }
  rewrite Hcut. unfold PyList.slice_from.
  assert (Hpos : (0 <=? - MAX_VISIBLE_ROWS cfg)%Z = true)
    by (apply Z.leb_le; lia).
  now rewrite Hpos.
Qed.

Lemma index_negative_limit_drops_first_rows_witness :
  index ExMore.negative (Ex.healthy 105) Ex.warm
  = (Return
       (IndexPage ["Name"; "Email"; "Age"] [["Alice"; "a@y.com"; "25"]]
          None true)%string,
     Ex.warm, []).
Proof.
  rewrite (index_negative_limit_drops_first_rows
             ExMore.negative (Ex.healthy 105) Ex.warm
             (headers Ex.john_alice) (rows Ex.john_alice) Ex.warm []).
  - reflexivity.
  - reflexivity.
  - left. discriminate.
  - reflexivity.
  - reflexivity.
Defined.

(* ------------------------------------------------------------------ *)
(** ** More on the two caches and on appending *)

Lemma remote_writes_app (tr1 tr2 : list Event) :
  remote_writes (tr1 ++ tr2) = (remote_writes tr1 + remote_writes tr2)%nat.
Proof. unfold remote_writes. now rewrite filter_app, length_app. Qed.

(** The calls [get_sheet] makes: at most one open, never a read or a
    write. *)
Lemma get_sheet_calls cfg env st :
  exists o st' tr,
    get_sheet cfg env st = (Return o, st', tr)
    /\ _cached_data st' = _cached_data st
    /\ remote_reads tr = 0%nat
    /\ remote_writes tr = 0%nat
    /\ (open_attempts tr <= 1)%nat.
Proof.
  destruct (sheet_fresh cfg st (now_get_sheet env)) eqn:F.
  - rewrite (get_sheet_cached _ _ _ F). do 3 eexists.
    repeat split; try reflexivity; unfold open_attempts; simpl; lia.
  - destruct (remote_open env) as [e|s] eqn:Ho.
    + rewrite (get_sheet_failed _ _ _ _ F Ho). do 3 eexists.
      repeat split; try reflexivity; unfold open_attempts; simpl; lia.
    + rewrite (get_sheet_opened _ _ _ _ F Ho). do 3 eexists.
      repeat split; try reflexivity; unfold open_attempts; simpl; lia.
Qed.

Lemma get_sheet_data_not_served cfg force force' env st :
  cache_fresh cfg force st (now_get_sheet_data env) = false ->
  cache_fresh cfg force' st (now_get_sheet_data env) = false ->
  get_sheet_data cfg force env st = get_sheet_data cfg force' env st.
Proof.
  intros C C'. unfold get_sheet_data.
  cbv beta iota zeta delta [bind ask gets]. now rewrite C, C'.
Qed.

(** X8. Whenever [add_row] returns, it returns the redirect to ["/"],
    whether or not anything was written: with no handle it makes no
    remote write at all, with a handle exactly one. *)
Theorem add_row_redirects_written_or_not cfg form env st :
  (forall r, outcome_of (add_row cfg form env st) = Return r ->
             r = Redirect "/")
  /\ (outcome_of (get_sheet cfg env st) = Return None ->
      outcome_of (add_row cfg form env st) = Return (Redirect "/")
      /\ remote_writes (trace_of (add_row cfg form env st)) = 0%nat)
  /\ (forall sh,
        outcome_of (get_sheet cfg env st) = Return (Some sh) ->
        remote_writes (trace_of (add_row cfg form env st)) = 1%nat).
Proof.
  destruct (get_sheet_calls cfg env st)
    as [o [st1 [tr1 [Hs [_ [_ [Hw0 _]]]]]]].
  rewrite Hs. unfold outcome_of at 2 4. cbn [fst].
  destruct o as [sh|].
  - destruct (remote_write env) as [e|] eqn:Hw.
    + rewrite (add_row_write_raises _ form _ _ _ _ _ _ Hs Hw).
      unfold outcome_of, trace_of. cbn [fst snd].
      rewrite remote_writes_app, Hw0.
      split; [|split]; intros; try discriminate; reflexivity.
    + rewrite (add_row_written _ form _ _ _ _ _ Hs Hw).
      unfold outcome_of, trace_of. cbn [fst snd].
      rewrite remote_writes_app, Hw0.
      split; [|split]; intros; try discriminate;
        [symmetry in H; now inversion H | reflexivity].
  - rewrite (add_row_no_sheet _ form _ _ _ _ Hs).
    unfold outcome_of, trace_of. cbn [fst snd].
    split; [|split]; intros; try discriminate;
      [symmetry in H; now inversion H | now split].
Qed.

Lemma add_row_redirects_written_or_not_witness :
  outcome_of (add_row default_config ExMore.no_form (Ex.unreachable 5000)
                Ex.warm)
  = Return (Redirect "/")
  /\ remote_writes
       (trace_of (add_row default_config ExMore.no_form (Ex.unreachable 5000)
                    Ex.warm))
     = 0%nat
  /\ remote_writes
       (trace_of (add_row default_config ExMore.no_form (Ex.healthy 105)
                    Ex.warm))
     = 1%nat.
Proof.
  split; [|split].
  - apply (proj1 (proj2 (add_row_redirects_written_or_not
                           default_config ExMore.no_form
                           (Ex.unreachable 5000) Ex.warm))).
    reflexivity.
  - apply (proj1 (proj2 (add_row_redirects_written_or_not
                           default_config ExMore.no_form
                           (Ex.unreachable 5000) Ex.warm))).
    reflexivity.
  - apply (proj2 (proj2 (add_row_redirects_written_or_not
                           default_config ExMore.no_form
                           (Ex.healthy 105) Ex.warm)) (Worksheet 1)).
    reflexivity.
Defined.

(** X9. Once a call of [get_sheet] has opened the sheet, a call less
    than [SHEET_REAUTH_SECONDS] later returns the same handle, leaves the
    state as it is and makes no external call. *)
Theorem get_sheet_reuses_opened_handle cfg env1 env2 st s :
  outcome_of (get_sheet cfg env1 st) = Return (Some s) ->
  open_attempts (trace_of (get_sheet cfg env1 st)) = 1%nat ->
  now_get_sheet env2 - now_get_sheet env1
    < inject_Z (SHEET_REAUTH_SECONDS cfg) ->
  get_sheet cfg env2 (state_of (get_sheet cfg env1 st))
  = (Return (Some s), state_of (get_sheet cfg env1 st), []).
Proof.
  intros Ho Hopen Hlt.
  destruct (sheet_fresh cfg st (now_get_sheet env1)) eqn:F.
  { rewrite (get_sheet_cached _ _ _ F) in Hopen. discriminate Hopen. }
  destruct (remote_open env1) as [e|s'] eqn:Hr.
  { rewrite (get_sheet_failed _ _ _ _ F Hr) in Ho. discriminate Ho. }
  rewrite (get_sheet_opened _ _ _ _ F Hr) in Ho |- *.
  unfold outcome_of in Ho. simpl in Ho. inversion Ho; subst s'.
  unfold state_of. cbn [fst snd].
  rewrite get_sheet_cached; [reflexivity|].
  apply sheet_fresh_iff. exists s. split; [reflexivity | exact Hlt].
Qed.

Lemma get_sheet_reuses_opened_handle_witness :
  get_sheet default_config (Ex.unreachable 3599)
    (state_of (get_sheet default_config (Ex.healthy 0) initial_state))
  = (Return (Some (Worksheet 2)),
     state_of (get_sheet default_config (Ex.healthy 0) initial_state), []).
Proof.
  apply (get_sheet_reuses_opened_handle
           default_config (Ex.healthy 0) (Ex.unreachable 3599)
           initial_state (Worksheet 2)).
  - reflexivity.
  - reflexivity.
  - vm_compute. reflexivity.
Defined.

(** X10. One call of [get_sheet_data] makes at most one attempt to open
    the sheet, at most one remote read and no remote write; and the
    snapshot cache changes only through a read that succeeds: when the
    call raises, or makes no remote read, the cache is as before. *)
Theorem get_sheet_data_cache_changes_only_on_read cfg force env st :
  (open_attempts (trace_of (get_sheet_data cfg force env st)) <= 1)%nat
  /\ (remote_reads (trace_of (get_sheet_data cfg force env st)) <= 1)%nat
  /\ remote_writes (trace_of (get_sheet_data cfg force env st)) = 0%nat
  /\ ((exists e, outcome_of (get_sheet_data cfg force env st) = Raise e)
      \/ remote_reads (trace_of (get_sheet_data cfg force env st)) = 0%nat ->
      _cached_data (state_of (get_sheet_data cfg force env st))
      = _cached_data st).
Proof.
  destruct (cache_fresh cfg force st (now_get_sheet_data env)) eqn:C.
  { rewrite (get_sheet_data_cached _ _ _ _ C).
    unfold trace_of, state_of. cbn [fst snd].
    split; [|split; [|split]]; try reflexivity;
      unfold open_attempts, remote_reads; simpl; lia. }
  destruct (get_sheet_calls cfg env st)
    as [o [st1 [tr1 [Hs [Hc [Hr0 [Hw0 Ho1]]]]]]].
  destruct o as [sh|].
  2:{ rewrite (get_sheet_data_no_sheet _ _ _ _ _ _ C Hs).
      unfold trace_of, state_of. cbn [fst snd].
      split; [|split; [|split]]; auto. lia. }
  destruct (remote_read env) as [e|data] eqn:Hr.
  - rewrite (get_sheet_data_read_raises _ _ _ _ _ _ _ _ C Hs Hr).
    unfold trace_of, state_of, outcome_of. cbn [fst snd].
    rewrite open_attempts_app, remote_reads_app, remote_writes_app, Hr0, Hw0.
    split; [|split; [|split]]; auto;
      unfold open_attempts, remote_reads in *; simpl; lia.
  - rewrite (get_sheet_data_read _ _ _ _ _ _ _ _ C Hs Hr).
    unfold trace_of, state_of, outcome_of. cbn [fst snd].
    rewrite open_attempts_app, remote_reads_app, remote_writes_app, Hr0, Hw0.
    split; [|split; [|split]].
    + unfold open_attempts in *. simpl. lia.
    + unfold remote_reads. simpl. lia.
    + reflexivity.
    + intros [[e He] | H]; [discriminate He | discriminate H].
Qed.

Lemma get_sheet_data_cache_changes_only_on_read_witness :
  _cached_data
    (state_of (get_sheet_data default_config true (Ex.flaky 105) Ex.warm))
  = Ex.john_alice.
Proof.
  apply (proj2 (proj2 (proj2 (get_sheet_data_cache_changes_only_on_read
                                default_config true (Ex.flaky 105) Ex.warm)))).
  left. eexists. reflexivity.
Defined.

(** X11. With [CACHE_TTL_SECONDS <= 0] the snapshot cache is off: at any
    time not before [fetched_at], a non-forced [get_sheet_data] does
    exactly what a forced one does. *)
Theorem get_sheet_data_zero_ttl_is_forced cfg env st :
  (CACHE_TTL_SECONDS cfg <= 0)%Z ->
  fetched_at (_cached_data st) <= now_get_sheet_data env ->
  get_sheet_data cfg false env st = get_sheet_data cfg true env st.
Proof.
  intros Httl Hle. apply get_sheet_data_not_served; [|reflexivity].
  unfold cache_fresh. apply andb_false_iff. right.
  apply Qlt_bool_false_iff.
  assert (Hq : inject_Z (CACHE_TTL_SECONDS cfg) <= 0).
  { change 0 with (inject_Z 0). rewrite <- Zle_Qle. exact Httl. }
  lra.
Qed.

Lemma get_sheet_data_zero_ttl_is_forced_witness :
  remote_reads
    (trace_of (get_sheet_data ExMore.no_cache false (Ex.healthy 100) Ex.warm))
  = 1%nat.
Proof.
  rewrite (get_sheet_data_zero_ttl_is_forced
             ExMore.no_cache (Ex.healthy 100) Ex.warm).
  - reflexivity.
  - vm_compute. discriminate.
  - vm_compute. discriminate.
Defined.

(* ------------------------------------------------------------------ *)
(** ** More on strings and on the search filter *)

Lemma string_app_assoc (a b c : string) :
  ((a ++ b) ++ c)%string = (a ++ b ++ c)%string.
Proof. induction a as [|x a IH]; simpl; [reflexivity | now rewrite IH]. Qed.

Lemma Substring_trans (q1 q2 s : string) :
  PyStr.Substring q1 q2 -> PyStr.Substring q2 s -> PyStr.Substring q1 s.
Proof.
  intros [a1 [b1 H1]] [a2 [b2 H2]]. subst.
  exists (a2 ++ a1)%string, (b1 ++ b2)%string.
  now rewrite !string_app_assoc.
Qed.

Lemma lower_char_idem (c : ascii) :
  PyStr.lower_char (PyStr.lower_char c) = PyStr.lower_char c.
Proof.
  destruct c as [b0 b1 b2 b3 b4 b5 b6 b7].
  destruct b0, b1, b2, b3, b4, b5, b6, b7; reflexivity.
Qed.

Lemma isspace_lower_char (c : ascii) :
  PyStr.isspace (PyStr.lower_char c) = PyStr.isspace c.
Proof.
  destruct c as [b0 b1 b2 b3 b4 b5 b6 b7].
  destruct b0, b1, b2, b3, b4, b5, b6, b7; reflexivity.
Qed.

Lemma lower_idem (s : string) : PyStr.lower (PyStr.lower s) = PyStr.lower s.
Proof.
  induction s as [|c s IH]; simpl; [reflexivity|].
  now rewrite lower_char_idem, IH.
Qed.

Lemma lstrip_lower (s : string) :
  PyStr.lstrip (PyStr.lower s) = PyStr.lower (PyStr.lstrip s).
Proof.
  induction s as [|c s IH]; simpl; [reflexivity|].
  rewrite isspace_lower_char. destruct (PyStr.isspace c); auto.
Qed.

Lemma rstrip_lower (s : string) :
  PyStr.rstrip (PyStr.lower s) = PyStr.lower (PyStr.rstrip s).
Proof.
  induction s as [|c s IH]; simpl; [reflexivity|].
  rewrite IH, isspace_lower_char.
  destruct (PyStr.rstrip s); simpl; [|reflexivity].
  destruct (PyStr.isspace c); reflexivity.
Qed.

Lemma strip_lower (s : string) :
  PyStr.strip (PyStr.lower s) = PyStr.lower (PyStr.strip s).
Proof. unfold PyStr.strip. now rewrite lstrip_lower, rstrip_lower. Qed.

Lemma rstrip_idem (s : string) :
  PyStr.rstrip (PyStr.rstrip s) = PyStr.rstrip s.
Proof.
  induction s as [|c s IH]; [reflexivity|].
  cbn [PyStr.rstrip]. destruct (PyStr.rstrip s) as [|d r] eqn:E.
  - destruct (PyStr.isspace c) eqn:Hc; [reflexivity|].
    cbn [PyStr.rstrip]. now rewrite Hc.
  - cbn [PyStr.rstrip] in *. now rewrite IH.
Qed.

(** A string that starts with no whitespace. *)
Lemma lstrip_fixed (s : string) :
  match s with
  | EmptyString => True
  | String c _ => PyStr.isspace c = false
  end ->
  PyStr.lstrip s = s.
Proof. destruct s as [|c s]; simpl; [reflexivity | now intros ->]. Qed.

Lemma lstrip_head (s : string) :
  match PyStr.lstrip s with
  | EmptyString => True
  | String c _ => PyStr.isspace c = false
  end.
Proof.
  induction s as [|c s IH]; simpl; [exact I|].
  destruct (PyStr.isspace c) eqn:Hc; [exact IH | exact Hc].
Qed.

Lemma rstrip_head (s : string) :
  match s with
  | EmptyString => True
  | String c _ => PyStr.isspace c = false
  end ->
  match PyStr.rstrip s with
  | EmptyString => True
  | String c _ => PyStr.isspace c = false
  end.
Proof.
  destruct s as [|c s]; simpl; [auto|]. intro Hc.
  destruct (PyStr.rstrip s); [rewrite Hc|]; exact Hc.
Qed.

Lemma strip_idem (s : string) : PyStr.strip (PyStr.strip s) = PyStr.strip s.
Proof.
  unfold PyStr.strip.
  rewrite (lstrip_fixed (PyStr.rstrip (PyStr.lstrip s))).
  - apply rstrip_idem.
  - apply rstrip_head, lstrip_head.
Qed.

(** Lowering or stripping a query beforehand leaves its normal form
    unchanged. *)
Lemma normalize_query_lower (s : string) :
  normalize_query (Some (PyStr.lower s)) = normalize_query (Some s).
Proof.
  rewrite !normalize_query_Some. now rewrite strip_lower, lower_idem.
Qed.

Lemma normalize_query_strip (s : string) :
  normalize_query (Some (PyStr.strip s)) = normalize_query (Some s).
Proof. rewrite !normalize_query_Some. now rewrite strip_idem. Qed.

Lemma row_matches_weaken (q1 q2 : string) (row : list string) :
  PyStr.Substring q1 q2 ->
  row_matches q2 row = true -> row_matches q1 row = true.
Proof.
  intros Hsub H. apply row_matches_iff in H. apply row_matches_iff.
  destruct H as [cell [Hin Hc]]. exists cell. split; [exact Hin|].
  eapply Substring_trans; eauto.
Qed.

(** X12. Lengthening a query never adds rows: when the query [q1]
    occurs inside the query [q2], the rows matching [q2] are the rows
    matching [q2] among those matching [q1], in the same order; so each
    of them matches [q1] as well. *)
Theorem longer_query_matches_fewer_rows
        (q1 q2 : string) (rs : list (list string)) :
  PyStr.Substring q1 q2 ->
  filter (row_matches q2) rs
  = filter (row_matches q2) (filter (row_matches q1) rs)
  /\ incl (filter (row_matches q2) rs) (filter (row_matches q1) rs).
Proof.
  intro Hsub.
  assert (Heq : filter (row_matches q2) rs
                = filter (row_matches q2) (filter (row_matches q1) rs)).
  { induction rs as [|row rs IH]; [reflexivity|]. simpl.
    destruct (row_matches q2 row) eqn:H2.
    - rewrite (row_matches_weaken _ _ _ Hsub H2). simpl.
      now rewrite H2, IH.
    - destruct (row_matches q1 row); simpl; [rewrite H2|]; exact IH. }
  split; [exact Heq|]. rewrite Heq. apply incl_filter.
Qed.

Lemma longer_query_matches_fewer_rows_witness :
  incl (filter (row_matches "j@x.com") (rows Ex.john_alice))
       (filter (row_matches "com") (rows Ex.john_alice)).
Proof.
  apply (longer_query_matches_fewer_rows "com" "j@x.com").
  exists "j@x."%string, EmptyString. reflexivity.
Defined.

(** X13. [search_rows] ignores the case of the query and the whitespace
    around it: the query lowered, or stripped, gets the same answer,
    state and trace as the query itself. *)
Theorem search_rows_ignores_case_and_padding cfg (s : string) env st :
  search_rows cfg (Some (PyStr.lower s)) env st
  = search_rows cfg (Some s) env st
  /\ search_rows cfg (Some (PyStr.strip s)) env st
     = search_rows cfg (Some s) env st.
Proof.
  unfold search_rows. cbv zeta.
  now rewrite normalize_query_lower, normalize_query_strip.
Qed.

(** X14. With a negative [MAX_SEARCH_RESULTS] = -k the slice
    [filtered[:MAX_SEARCH_RESULTS]] drops the last k matches: for a
    query that is not blank, served the snapshot [(hs, rs)],
    [search_rows] answers all the matching rows but the last k (none
    when there are at most k). *)
Theorem search_rows_negative_limit_drops_last cfg s env st hs rs st' tr :
  (MAX_SEARCH_RESULTS cfg < 0)%Z ->
  PyStr.all_space s = false ->
  get_sheet_data cfg false env st = (Return (hs, rs), st', tr) ->
  search_rows cfg (Some s) env st
  = (Return
       (JsonTable hs
          (firstn
             (List.length (filter (row_matches (normalize_query (Some s))) rs)
              - Z.to_nat (- MAX_SEARCH_RESULTS cfg))
             (filter (row_matches (normalize_query (Some s))) rs))),
     st', tr).
Proof.
  intros Hneg Hs Hd.
  rewrite (search_rows_served cfg (Some s) env st hs rs st' tr); [|
    rewrite normalize_query_truthy; now rewrite Hs | exact Hd].
  unfold limit_results, PyList.truthy_int, PyList.slice_to.
  set (matches := filter (row_matches (normalize_query (Some s))) rs).
  assert (Hnz : (MAX_SEARCH_RESULTS cfg =? 0)%Z = false)
    by (apply Z.eqb_neq; lia).
  assert (Hlt : (MAX_SEARCH_RESULTS cfg <? Z.of_nat (List.length matches))%Z
                = true) by (apply Z.ltb_lt; lia).
  assert (Hge : (0 <=? MAX_SEARCH_RESULTS cfg)%Z = false)
    by (apply Z.leb_gt; lia).
  rewrite Hnz, Hlt, Hge. cbn [negb andb].
  replace (Z.to_nat (Z.of_nat (List.length matches) + MAX_SEARCH_RESULTS cfg))
    with (List.length matches - Z.to_nat (- MAX_SEARCH_RESULTS cfg))%nat
    by lia.
  reflexivity.
Qed.

Lemma search_rows_negative_limit_drops_last_witness :
  search_rows ExMore.negative (Some "com"%string) (Ex.healthy 105) Ex.warm
  = (Return
       (JsonTable ["Name"; "Email"; "Age"] [["John"; "j@x.com"; "30"]])%string,
     Ex.warm, []).
Proof.
  rewrite (search_rows_negative_limit_drops_last
             ExMore.negative "com"%string (Ex.healthy 105) Ex.warm
             (headers Ex.john_alice) (rows Ex.john_alice) Ex.warm []);
    reflexivity.
Defined.

(** X15. [index] and [search_rows] (on a query that is not blank) add
    no effect and no failure of their own to the [get_sheet_data] they
    call: same final state, same trace, and they raise exactly the
    exceptions it raises. *)
Theorem index_and_search_add_no_failure cfg s env st :
  PyStr.all_space s = false ->
  (state_of (index cfg env st) = state_of (get_sheet_data cfg false env st)
   /\ trace_of (index cfg env st)
      = trace_of (get_sheet_data cfg false env st)
   /\ forall e,
       outcome_of (index cfg env st) = Raise e <->
       outcome_of (get_sheet_data cfg false env st) = Raise e)
  /\ (state_of (search_rows cfg (Some s) env st)
      = state_of (get_sheet_data cfg false env st)
      /\ trace_of (search_rows cfg (Some s) env st)
         = trace_of (get_sheet_data cfg false env st)
      /\ forall e,
          outcome_of (search_rows cfg (Some s) env st) = Raise e <->
          outcome_of (get_sheet_data cfg false env st) = Raise e).
Proof.
  intro Hs.
  assert (Hq : PyStr.truthy (normalize_query (Some s)) = true)
    by (rewrite normalize_query_truthy; now rewrite Hs).
  destruct (get_sheet_data cfg false env st) as [[[[hs rs]|e'] st'] tr] eqn:Hd.
  - rewrite (search_rows_served _ _ _ _ _ _ _ _ Hq Hd).
    assert (Hi : exists page, index cfg env st = (Return page, st', tr)).
    { destruct (SHOW_TABLE cfg) eqn:Hshow.
      - destruct (PyList.truthy hs || PyList.truthy rs) eqn:Hne.
        + rewrite (index_served_shown _ _ _ _ _ _ _ Hshow Hne Hd). eauto.
        + apply orb_false_iff in Hne. destruct Hne as [Hh Hr].
          destruct hs; [|discriminate]. destruct rs; [|discriminate].
          rewrite (index_served_nothing _ _ _ _ _ Hd). eauto.
      - destruct (index_served_hidden _ _ _ _ _ _ _ Hshow Hd) as [msg Hm].
        rewrite Hm. eauto. }
    destruct Hi as [page Hi]. rewrite Hi.
    unfold state_of, trace_of, outcome_of. cbn [fst snd].
    repeat split; intro H; discriminate H.
  - rewrite (search_rows_raises _ _ _ _ _ _ _ Hq Hd).
    rewrite (index_raises _ _ _ _ _ _ Hd).
    unfold state_of, trace_of, outcome_of. cbn [fst snd].
    repeat split; intro H; inversion H; reflexivity.
Qed.

Lemma index_and_search_add_no_failure_witness :
  outcome_of (index default_config (Ex.flaky 200) Ex.warm)
  = Raise (Exception "APIError 429")
  /\ outcome_of
       (search_rows default_config (Some "john"%string) (Ex.flaky 200) Ex.warm)
     = Raise (Exception "APIError 429").
Proof.
  destruct (index_and_search_add_no_failure
              default_config "john"%string (Ex.flaky 200) Ex.warm eq_refl)
    as [[_ [_ Hi]] [_ [_ Hsr]]].
  split; [apply Hi | apply Hsr]; reflexivity.
Defined.

(* ------------------------------------------------------------------ *)
(** ** The chat router *)

Lemma chat_router_None cfg :
  chat_router cfg None = chat_router cfg (Some EmptyString).
Proof. reflexivity. Qed.

Lemma chat_router_static cfg s env st text :
  _basic_chat_response cfg (Some s) = Some text ->
  chat_router cfg (Some s) env st = (Return (ChatText text), st, []).
Proof. intro Hb. unfold chat_router. cbv zeta. now rewrite Hb. Qed.

Lemma chat_router_no_sheet cfg s env st st1 tr1 :
  _basic_chat_response cfg (Some s) = None ->
  get_sheet cfg env st = (Return None, st1, tr1) ->
  chat_router cfg (Some s) env st
  = (Return (ChatText not_configured_text), st1, tr1).
Proof.
  intros Hb Hs. unfold chat_router. cbv zeta. rewrite Hb.
  cbv beta iota delta [bind ret]. rewrite Hs. cbv beta iota.
  now rewrite app_nil_r.
Qed.

Lemma chat_router_read_raises cfg s env st st1 tr1 sh e :
  _basic_chat_response cfg (Some s) = None ->
  get_sheet cfg env st = (Return (Some sh), st1, tr1) ->
  remote_read env = inl e ->
  chat_router cfg (Some s) env st = (Raise e, st1, tr1 ++ [EvGetAllValues sh]).
Proof.
  intros Hb Hs Hr. unfold chat_router. cbv zeta. rewrite Hb.
  cbv beta iota delta [bind ret get_all_values emit ask answer raise].
  rewrite Hs. cbv beta iota. rewrite Hr. reflexivity.
Qed.

Lemma chat_router_read cfg s env st st1 tr1 sh data :
  _basic_chat_response cfg (Some s) = None ->
  get_sheet cfg env st = (Return (Some sh), st1, tr1) ->
  remote_read env = inr data ->
  chat_router cfg (Some s) env st
  = (Return
       match data with
       | [] => ChatText empty_sheet_text
       | hs :: rs =>
           if PyStr.all_space s then ChatText enter_something_text
           else ChatTable hs
                  (limit_results cfg
                     (filter (row_matches (normalize_query (Some s))) rs))
       end,
     st1, tr1 ++ [EvGetAllValues sh]).
Proof.
  intros Hb Hs Hr. unfold chat_router. cbv zeta. rewrite Hb.
  cbv beta iota delta [bind ret get_all_values emit ask answer raise].
  rewrite Hs. cbv beta iota. rewrite Hr. cbv beta iota.
  destruct data as [|hs rs]; [reflexivity|].
  cbn [PyList.truthy negb]. unfold list_getitem. cbn [Z.leb Z.compare].
  cbn [Z.to_nat nth_error].
  rewrite normalize_query_truthy.
  destruct (PyStr.all_space s); cbn [negb];
    destruct rs as [|r rs]; reflexivity.
Qed.

(** [get_sheet] neither reads nor writes the snapshot cache. *)
Lemma get_sheet_update_cached cfg env st c o st1 tr1 :
  get_sheet cfg env st = (o, st1, tr1) ->
  get_sheet cfg env (update_cached c st) = (o, update_cached c st1, tr1).
Proof.
  intro Hs.
  assert (Hf : sheet_fresh cfg (update_cached c st) (now_get_sheet env)
               = sheet_fresh cfg st (now_get_sheet env)) by reflexivity.
  destruct (sheet_fresh cfg st (now_get_sheet env)) eqn:F.
  - rewrite (get_sheet_cached _ _ _ F) in Hs.
    rewrite (get_sheet_cached _ _ _ Hf). now inversion Hs.
  - destruct (remote_open env) as [e|s] eqn:Ho.
    + rewrite (get_sheet_failed _ _ _ _ F Ho) in Hs.
      rewrite (get_sheet_failed _ _ _ _ Hf Ho). now inversion Hs.
    + rewrite (get_sheet_opened _ _ _ _ F Ho) in Hs.
      rewrite (get_sheet_opened _ _ _ _ Hf Ho). now inversion Hs.
Qed.

(** A query that contains a greeting word gets the greeting. *)
Lemma basic_chat_response_greeting cfg s w :
  In w greetings ->
  PyStr.Substring w (normalize_query (Some s)) ->
  _basic_chat_response cfg (Some s) = Some greeting_text.
Proof.
  intros Hw Hsub. unfold _basic_chat_response. cbv zeta.
  assert (Hq : PyStr.truthy (normalize_query (Some s)) = true).
  { destruct Hsub as [a [b Hab]]. rewrite Hab.
    destruct a; [|reflexivity]. simpl.
    destruct w; [|reflexivity].
    simpl in Hw. repeat (destruct Hw as [Hw|Hw]; [discriminate|]).
    contradiction. }
  rewrite Hq. cbn [negb].
  assert (Hany : existsb
                   (fun word => PyStr.contains (normalize_query (Some s)) word)
                   greetings = true).
  { apply existsb_exists. exists w. split; [exact Hw|].
    now apply contains_iff. }
  now rewrite Hany.
Qed.

(** X16. A query whose normal form contains one of the greeting words
    anywhere, also inside a longer word, is answered with the greeting
    text: [chat_router] then makes no external call, leaves the state as
    it is, and never searches the sheet for it. *)
Theorem chat_router_greeting_inside_word cfg s env st w :
  In w greetings ->
  PyStr.Substring w (normalize_query (Some s)) ->
  chat_router cfg (Some s) env st = (Return (ChatText greeting_text), st, []).
Proof.
  intros Hw Hsub. apply chat_router_static.
  now apply (basic_chat_response_greeting cfg s w).
Qed.

Lemma chat_router_greeting_inside_word_witness :
  chat_router default_config (Some "Whitney"%string) (Ex.healthy 105) Ex.warm
  = (Return (ChatText greeting_text), Ex.warm, []).
Proof.
  apply (chat_router_greeting_inside_word
           default_config "Whitney"%string (Ex.healthy 105) Ex.warm
           "hi"%string).
  - left. reflexivity.
  - apply contains_iff. reflexivity.
Defined.

Lemma basic_chat_response_blank cfg s :
  PyStr.all_space s = true -> _basic_chat_response cfg (Some s) = None.
Proof.
  intro Hs. unfold _basic_chat_response. cbv zeta.
  rewrite normalize_query_truthy, Hs. reflexivity.
Qed.

(** X17. A blank query is not answered before the sheet is consulted:
    with a handle and a remote table that is not empty, [chat_router]
    reads the whole table and only then asks for something to search;
    with no handle it reports that access is not configured. *)
Theorem chat_router_blank_query_goes_to_sheet cfg s env st :
  PyStr.all_space s = true ->
  (outcome_of (get_sheet cfg env st) = Return None ->
   outcome_of (chat_router cfg (Some s) env st)
   = Return (ChatText not_configured_text))
  /\ (forall sh r data,
        outcome_of (get_sheet cfg env st) = Return (Some sh) ->
        remote_read env = inr (r :: data) ->
        chat_router cfg (Some s) env st
        = (Return (ChatText enter_something_text),
           state_of (get_sheet cfg env st),
           trace_of (get_sheet cfg env st) ++ [EvGetAllValues sh])).
Proof.
  intro Hs. pose proof (basic_chat_response_blank cfg s Hs) as Hb.
  destruct (get_sheet cfg env st) as [[o st1] tr1] eqn:Hg.
  unfold outcome_of, state_of, trace_of. cbn [fst snd]. split.
  - intro Ho. subst o. now rewrite (chat_router_no_sheet _ _ _ _ _ _ Hb Hg).
  - intros sh r data Ho Hr. subst o.
    rewrite (chat_router_read _ _ _ _ _ _ _ _ Hb Hg Hr). now rewrite Hs.
Qed.

Lemma chat_router_blank_query_goes_to_sheet_witness :
  chat_router default_config (Some "  "%string) (Ex.healthy 105) Ex.warm
  = (Return (ChatText enter_something_text), Ex.warm,
     [EvGetAllValues (Worksheet 1)]).
Proof.
  apply (proj2 (chat_router_blank_query_goes_to_sheet
                  default_config "  "%string (Ex.healthy 105) Ex.warm
                  eq_refl)
           (Worksheet 1) (hd [] Ex.table) (tl Ex.table));
    reflexivity.
Defined.

(** X18. [chat_router] never uses the snapshot cache and never fills
    it: whatever the query, the cache is the same after the call as
    before, and the answer and the external calls made do not depend on
    what the cache holds. *)
Theorem chat_router_bypasses_snapshot_cache cfg q env st :
  _cached_data (state_of (chat_router cfg q env st)) = _cached_data st
  /\ forall c,
      outcome_of (chat_router cfg q env (update_cached c st))
      = outcome_of (chat_router cfg q env st)
      /\ trace_of (chat_router cfg q env (update_cached c st))
         = trace_of (chat_router cfg q env st).
Proof.
  assert (Hsome : forall s,
    _cached_data (state_of (chat_router cfg (Some s) env st))
    = _cached_data st
    /\ forall c,
        outcome_of (chat_router cfg (Some s) env (update_cached c st))
        = outcome_of (chat_router cfg (Some s) env st)
        /\ trace_of (chat_router cfg (Some s) env (update_cached c st))
           = trace_of (chat_router cfg (Some s) env st)).
  { intro s.
    destruct (_basic_chat_response cfg (Some s)) as [text|] eqn:Hb.
    { rewrite (chat_router_static _ _ _ st _ Hb). split; [reflexivity|].
      intro c. now rewrite (chat_router_static _ _ _ _ _ Hb). }
    destruct (get_sheet_total cfg env st) as [o [st1 [tr1 [Hg [Hc _]]]]].
    destruct o as [sh|].
    2:{ rewrite (chat_router_no_sheet _ _ _ _ _ _ Hb Hg).
        split; [exact Hc|]. intro c.
        now rewrite (chat_router_no_sheet _ _ _ _ _ _ Hb
                       (get_sheet_update_cached _ _ _ c _ _ _ Hg)). }
    destruct (remote_read env) as [e|data] eqn:Hr.
    - rewrite (chat_router_read_raises _ _ _ _ _ _ _ _ Hb Hg Hr).
      split; [exact Hc|]. intro c.
      now rewrite (chat_router_read_raises _ _ _ _ _ _ _ _ Hb
                     (get_sheet_update_cached _ _ _ c _ _ _ Hg) Hr).
    - rewrite (chat_router_read _ _ _ _ _ _ _ _ Hb Hg Hr).
      split; [exact Hc|]. intro c.
      now rewrite (chat_router_read _ _ _ _ _ _ _ _ Hb
                     (get_sheet_update_cached _ _ _ c _ _ _ Hg) Hr). }
  destruct q as [s|]; [apply Hsome | rewrite chat_router_None; apply Hsome].
Qed.

(** X19. On a query that is not blank and gets no canned answer, with a
    handle and a successful read, [chat_router] answers the table that a
    [search_rows] not served from the cache answers in the same
    environment, as long as the read returns at least one row; when the
    read returns no row at all, the chat reports an empty sheet where
    the search answers an empty table. *)
Theorem chat_router_agrees_with_fresh_search cfg s env st sh data :
  _basic_chat_response cfg (Some s) = None ->
  PyStr.all_space s = false ->
  cache_fresh cfg false st (now_get_sheet_data env) = false ->
  outcome_of (get_sheet cfg env st) = Return (Some sh) ->
  remote_read env = inr data ->
  (data <> [] ->
   exists hs rs,
     outcome_of (search_rows cfg (Some s) env st) = Return (JsonTable hs rs)
     /\ outcome_of (chat_router cfg (Some s) env st)
        = Return (ChatTable hs rs))
  /\ (data = [] ->
      outcome_of (search_rows cfg (Some s) env st) = Return (JsonTable [] [])
      /\ outcome_of (chat_router cfg (Some s) env st)
         = Return (ChatText empty_sheet_text)).
Proof.
  intros Hb Hs C Hsome Hr.
  destruct (get_sheet_total cfg env st) as [o [st1 [tr1 [Hg _]]]].
  rewrite Hg in Hsome. unfold outcome_of in Hsome. simpl in Hsome.
  inversion Hsome; subst o.
  assert (Hq : PyStr.truthy (normalize_query (Some s)) = true)
    by (rewrite normalize_query_truthy; now rewrite Hs).
  rewrite (search_rows_served _ _ _ _ _ _ _ _ Hq
             (get_sheet_data_read _ _ _ _ _ _ _ _ C Hg Hr)).
  rewrite (chat_router_read _ _ _ _ _ _ _ _ Hb Hg Hr).
  unfold outcome_of. cbn [fst]. split.
  - intro Hne. destruct data as [|hs rs]; [now elim Hne|].
    rewrite Hs. simpl hd. simpl tl. eauto.
  - intros ->. simpl. now rewrite limit_results_nil.
Qed.

Lemma chat_router_agrees_with_fresh_search_witness :
  exists hs rs,
    outcome_of
      (search_rows default_config (Some "alice"%string) (Ex.healthy 200)
         Ex.warm)
    = Return (JsonTable hs rs)
    /\ outcome_of
         (chat_router default_config (Some "alice"%string) (Ex.healthy 200)
            Ex.warm)
       = Return (ChatTable hs rs).
Proof.
  apply (proj1 (chat_router_agrees_with_fresh_search
                  default_config "alice"%string (Ex.healthy 200) Ex.warm
                  (Worksheet 1) Ex.table
                  eq_refl eq_refl eq_refl eq_refl eq_refl)).
  discriminate.
Defined.

(** X20. [chat_router] raises exactly when the query gets no canned
    answer, a handle is obtained and the remote read raises; it then
    raises the exception of the read.  Its [data[0]] never raises an
    [IndexError]. *)
Theorem chat_router_raises_only_read_errors cfg s env st e :
  outcome_of (chat_router cfg (Some s) env st) = Raise e <->
  _basic_chat_response cfg (Some s) = None
  /\ (exists sh, outcome_of (get_sheet cfg env st) = Return (Some sh))
  /\ remote_read env = inl e.
Proof.
  destruct (_basic_chat_response cfg (Some s)) as [text|] eqn:Hb.
  { rewrite (chat_router_static _ _ _ _ _ Hb). unfold outcome_of. cbn [fst].
    split; [discriminate | intros [H _]; discriminate]. }
  destruct (get_sheet_total cfg env st) as [o [st1 [tr1 [Hg _]]]].
  rewrite Hg. destruct o as [sh|].
  2:{ rewrite (chat_router_no_sheet _ _ _ _ _ _ Hb Hg).
      unfold outcome_of. cbn [fst].
      split; [discriminate | intros [_ [[sh H] _]]; discriminate]. }
  destruct (remote_read env) as [e'|data] eqn:Hr.
  - rewrite (chat_router_read_raises _ _ _ _ _ _ _ _ Hb Hg Hr).
    unfold outcome_of. cbn [fst]. split.
    + intro H. inversion H; subst. eauto.
    + intros [_ [_ H]]. now inversion H.
  - rewrite (chat_router_read _ _ _ _ _ _ _ _ Hb Hg Hr).
    unfold outcome_of. cbn [fst].
    split; [discriminate | intros [_ [_ H]]; discriminate].
Qed.

Lemma chat_router_raises_only_read_errors_witness :
  outcome_of
    (chat_router default_config (Some "alice"%string) (Ex.flaky 105) Ex.warm)
  = Raise (Exception "APIError 429").
Proof.
  apply (proj2 (chat_router_raises_only_read_errors
                  default_config "alice"%string (Ex.flaky 105) Ex.warm
                  (Exception "APIError 429"))).
  split; [reflexivity | split; [exists (Worksheet 1)|]; reflexivity].
Defined.

(** X21. [chat_router] ignores the case of the query and the whitespace
    around it, for the canned answers as for the search: the query
    lowered, or stripped, gets the same answer, state and trace. *)
Theorem chat_router_ignores_case_and_padding cfg (s : string) env st :
  chat_router cfg (Some (PyStr.lower s)) env st
  = chat_router cfg (Some s) env st
  /\ chat_router cfg (Some (PyStr.strip s)) env st
     = chat_router cfg (Some s) env st.
Proof.
  unfold chat_router, _basic_chat_response. cbv zeta.
  now rewrite normalize_query_lower, normalize_query_strip.
Qed.
